(** * e3.aws.cfn: resources, stacks and their export

    A shallow embedding of [e3/aws/cfn/__init__.py], [e3/aws/cfn/ec2/__init__.py]
    and [e3/aws/cfn/codecommit.py], followed by the properties of the
    CloudFormation object model that the specification states.

    Modelling conventions.
    - A Python [str] is a [string]: the sequence of its code points, for code
      points below 256 (Basic Latin and Latin-1 Supplement).
    - A Python [int] is a [Z].
    - A Python [dict] is an insertion-ordered association list ([odict]):
      assigning to a present key replaces the value in place, assigning to an
      absent key appends the entry.
    - A method that mutates [self] is a computation in the monad [M] over the
      state of [self]; a raised exception is an [outcome], and the state that
      the raising call leaves behind is kept next to it. *)

From Stdlib Require Import Ascii String DecimalString.
From stdpp Require Import base list strings numbers.

Set Warnings "-register-all".

Open Scope Z_scope.
Open Scope string_scope.

(** ** Exceptions and outcomes *)

(** The exceptions the modelled code raises.  An [assert] statement raises
    [AssertionError] with its message (the empty string when the statement
    gives none); reading a missing attribute raises [AttributeError];
    [Stack.__getitem__] raises [KeyError]; [max] of an empty list raises
    [ValueError]. *)
Inductive exn : Type :=
| AssertionError (msg : string)
| AttributeError (attr : string)
| KeyError
| ValueError.

Inductive outcome (A : Type) : Type :=
| Return (a : A)
| Raise (e : exn).
Arguments Return {A} a.
Arguments Raise {A} e.

Definition outcome_bind {A B} (o : outcome A) (f : A -> outcome B) : outcome B :=
  match o with
  | Return a => f a
  | Raise e => Raise e
  end.

Definition raises {A} (o : outcome A) : bool :=
  match o with
  | Return _ => false
  | Raise _ => true
  end.

(** ** The state-and-exception monad *)

Definition M (S A : Type) : Type := S -> outcome A * S.

Definition ret {S A} (a : A) : M S A := fun s => (Return a, s).

Definition bind {S A B} (m : M S A) (f : A -> M S B) : M S B :=
  fun s =>
    match m s with
    | (Return a, s') => f a s'
    | (Raise e, s') => (Raise e, s')
    end.

Definition get {S} : M S S := fun s => (Return s, s).
Definition modify {S} (f : S -> S) : M S unit := fun s => (Return tt, f s).
Definition raise {S A} (e : exn) : M S A := fun s => (Raise e, s).
Definition lift {S A} (o : outcome A) : M S A := fun s => (o, s).

(** [assert cond, msg] *)
Definition assert_ {S} (cond : bool) (msg : string) : M S unit :=
  if cond then ret tt else raise (AssertionError msg).

(** [for x in l: body(x)] *)
Fixpoint for_ {S A} (l : list A) (body : A -> M S unit) : M S unit :=
  match l with
  | [] => ret tt
  | x :: l' => bind (body x) (fun _ => for_ l' body)
  end.

Declare Scope monad_scope.
Delimit Scope monad_scope with monad.
Notation "x <- m ;; k" := (bind m (fun x => k))
  (at level 100, m at next level, right associativity) : monad_scope.
Notation "m ;; k" := (bind m (fun _ => k))
  (at level 100, right associativity) : monad_scope.
Notation "x <-- o ;; k" := (outcome_bind o (fun x => k))
  (at level 100, o at next level, right associativity) : monad_scope.
Open Scope monad_scope.

(** ** Insertion-ordered dictionaries *)

Module odict.
Section odict.
Context {K V : Type} `{EqDecision K}.

Definition t : Type := list (K * V).

Definition empty : t := [].

(** [d.get(k)] *)
Fixpoint get (k : K) (d : t) : option V :=
  match d with
  | [] => None
  | (k', v) :: d' => if decide (k = k') then Some v else get k d'
  end.

(** [k in d] *)
Definition contains (k : K) (d : t) : bool :=
  match get k d with
  | Some _ => true
  | None => false
  end.

(** [d[k] = v] *)
Fixpoint set (k : K) (v : V) (d : t) : t :=
  match d with
  | [] => [(k, v)]
  | (k', v') :: d' =>
      if decide (k = k') then (k, v) :: d' else (k', v') :: set k v d'
  end.

(** [list(d.keys())] and [list(d.values())] *)
Definition keys (d : t) : list K := map fst d.
Definition values (d : t) : list V := map snd d.

(** A dictionary display [{k1: v1, k2: v2, ...}] and a comprehension both
    assign their entries from left to right. *)
Definition of_list (l : list (K * V)) : t :=
  fold_left (fun d kv => set kv.1 kv.2 d) l empty.
End odict.
Arguments t : clear implicits.
End odict.

(** ** Characters and strings *)

Definition code (c : ascii) : N := N_of_ascii c.

Definition in_range (lo hi : N) (c : ascii) : bool :=
  ((lo <=? code c) && (code c <=? hi))%N.

(** The character class [[a-zA-Z0-9]] of the regular expressions. *)
Definition ascii_alnum (c : ascii) : bool :=
  in_range 48 57 c || in_range 65 90 c || in_range 97 122 c.

Definition ascii_letter (c : ascii) : bool :=
  in_range 65 90 c || in_range 97 122 c.

(** [c.isalnum()] for a single character: the character is a letter or is
    numeric in the Unicode database.  Below 256 these are the ASCII digits and
    letters, the ordinal indicators U+00AA and U+00BA, the superscripts U+00B2,
    U+00B3 and U+00B9, the micro sign U+00B5, the fractions U+00BC to U+00BE,
    and the Latin-1 letters U+00C0 to U+00FF without the signs U+00D7 and
    U+00F7. *)
Definition char_isalnum (c : ascii) : bool :=
  ascii_alnum c
  || in_range 170 170 c || in_range 178 179 c || in_range 181 181 c
  || in_range 185 186 c || in_range 188 190 c
  || in_range 192 214 c || in_range 216 246 c || in_range 248 255 c.

Fixpoint all_chars (p : ascii -> bool) (s : string) : bool :=
  match s with
  | EmptyString => true
  | String c s' => p c && all_chars p s'
  end.

(** [s.isalnum()]: every character is alphanumeric and there is at least
    one character. *)
Definition isalnum (s : string) : bool :=
  match s with
  | EmptyString => false
  | String _ _ => all_chars char_isalnum s
  end.

(** [str(n)] for an integer. *)
Definition str_of_int (n : Z) : string := NilZero.string_of_int (Z.to_int n).

(** [re.sub(r"[^a-zA-Z0-9]+", "", s)]: every maximal run of characters outside
    the class is replaced by the empty string. *)
Fixpoint strip_non_alnum (s : string) : string :=
  match s with
  | EmptyString => EmptyString
  | String c s' =>
      if ascii_alnum c then String c (strip_non_alnum s') else strip_non_alnum s'
  end.

(** ** The resource-kind catalog *)

(** [class AWSType(Enum)] *)
Inductive AWSType : Type :=
| EC2_INSTANCE
| EC2_INTERNET_GATEWAY
| EC2_ROUTE
| EC2_ROUTE_TABLE
| EC2_SECURITY_GROUP
| EC2_SUBNET
| EC2_SUBNET_ROUTE_TABLE_ASSOCIATION
| EC2_VOLUME
| EC2_VPC
| EC2_VPC_GATEWAY_ATTACHMENT
| IAM_ROLE
| IAM_POLICY
| IAM_INSTANCE_PROFILE
| ROUTE53_RECORDSET
| S3_BUCKET.

(** [kind.value] *)
Definition AWSType_value (k : AWSType) : string :=
  match k with
  | EC2_INSTANCE => "AWS::EC2::Instance"
  | EC2_INTERNET_GATEWAY => "AWS::EC2::InternetGateway"
  | EC2_ROUTE => "AWS::EC2::Route"
  | EC2_ROUTE_TABLE => "AWS::EC2::RouteTable"
  | EC2_SECURITY_GROUP => "AWS::EC2::SecurityGroup"
  | EC2_SUBNET => "AWS::EC2::Subnet"
  | EC2_SUBNET_ROUTE_TABLE_ASSOCIATION => "AWS::EC2::SubnetRouteTableAssociation"
  | EC2_VOLUME => "AWS::EC2::Volume"
  | EC2_VPC => "AWS::EC2::VPC"
  | EC2_VPC_GATEWAY_ATTACHMENT => "AWS::EC2::VPCGatewayAttachment"
  | IAM_ROLE => "AWS::IAM::Role"
  | IAM_POLICY => "AWS::IAM::Policy"
  | IAM_INSTANCE_PROFILE => "AWS::IAM::InstanceProfile"
  | ROUTE53_RECORDSET => "AWS::Route53::RecordSet"
  | S3_BUCKET => "AWS::S3::Bucket"
  end.

(** The members of the enumeration, by name. *)
Definition AWSType_members : odict.t string AWSType :=
  [ ("EC2_INSTANCE", EC2_INSTANCE);
    ("EC2_INTERNET_GATEWAY", EC2_INTERNET_GATEWAY);
    ("EC2_ROUTE", EC2_ROUTE);
    ("EC2_ROUTE_TABLE", EC2_ROUTE_TABLE);
    ("EC2_SECURITY_GROUP", EC2_SECURITY_GROUP);
    ("EC2_SUBNET", EC2_SUBNET);
    ("EC2_SUBNET_ROUTE_TABLE_ASSOCIATION", EC2_SUBNET_ROUTE_TABLE_ASSOCIATION);
    ("EC2_VOLUME", EC2_VOLUME);
    ("EC2_VPC", EC2_VPC);
    ("EC2_VPC_GATEWAY_ATTACHMENT", EC2_VPC_GATEWAY_ATTACHMENT);
    ("IAM_ROLE", IAM_ROLE);
    ("IAM_POLICY", IAM_POLICY);
    ("IAM_INSTANCE_PROFILE", IAM_INSTANCE_PROFILE);
    ("ROUTE53_RECORDSET", ROUTE53_RECORDSET);
    ("S3_BUCKET", S3_BUCKET) ].

(** The attribute access [AWSType.NAME] for an upper-case member name: a
    name that the enumeration does not define raises [AttributeError]. *)
Definition AWSType_getattr (member : string) : outcome AWSType :=
  match odict.get member AWSType_members with
  | Some k => Return k
  | None => Raise (AttributeError member)
  end.

(** The [kind] argument of [Resource.__init__] is an arbitrary object: either
    a member of [AWSType], or something else, of which only [str(kind)]
    matters. *)
Inductive kind_arg : Type :=
| IsAWSType (k : AWSType)
| NotAWSType (shown : string).

(** ** Intrinsic functions *)

(** [class GetAtt], [class Ref], [class Base64] *)
Record GetAtt : Type := mkGetAtt { getatt_name : string; getatt_attribute : string }.
Record Ref : Type := mkRef { ref_name : string }.
Record Base64 : Type := mkBase64 { base64_content : string }.

(** ** Values of exported documents *)

(** The objects that occur in [properties] and [export()] results: the
    native YAML values and the three intrinsic functions. *)
Inductive PyVal : Type :=
| PyNone
| PyBool (b : bool)
| PyInt (n : Z)
| PyStr (s : string)
| PyList (l : list PyVal)
| PyDict (d : list (string * PyVal))
| PyGetAtt (g : GetAtt)
| PyRef (r : Ref)
| PyBase64 (b : Base64).

(** ** The YAML representers *)

(** The node that PyYAML's [Dumper.represent_scalar(tag, value)] builds. *)
Record ScalarNode : Type := mkScalarNode { tag : string; value : string }.

Definition represent_scalar (tag value : string) : ScalarNode :=
  mkScalarNode tag value.

(** ['%s.%s' % (a, b)] *)
Definition format_dotted (a b : string) : string := a +:+ "." +:+ b.

Definition getatt_representer (data : GetAtt) : ScalarNode :=
  represent_scalar "!GetAtt" (format_dotted (getatt_name data) (getatt_attribute data)).

Definition ref_representer (data : Ref) : ScalarNode :=
  represent_scalar "!Ref" (ref_name data).

Definition base64_representer (data : Base64) : ScalarNode :=
  represent_scalar "!Base64" (base64_content data).

(** The table that the three [yaml.add_representer] calls fill: the
    representer registered for the class of a value, if any. *)
Definition yaml_representers (v : PyVal) : option ScalarNode :=
  match v with
  | PyGetAtt g => Some (getatt_representer g)
  | PyRef r => Some (ref_representer r)
  | PyBase64 b => Some (base64_representer b)
  | _ => None
  end.

(** ** Resources *)

(** [class Resource]: the fields and the constructor of the base class. *)
Module Resource.
Record t : Type := mk { name : string; kind : AWSType; depends : option string }.

(** [ATTRIBUTES = ()] *)
Definition ATTRIBUTES : list string := [].

(** [Resource.__init__(self, name, kind)] *)
Definition init (name : string) (kind : kind_arg) : outcome t :=
  match kind with
  | NotAWSType shown =>
      Raise (AssertionError ("resource kind should be an AWSType: found " +:+ shown))
  | IsAWSType k =>
      if isalnum name then Return (mk name k None)
      else Raise (AssertionError ("resource name should be alphanumeric: found " +:+ name))
  end.

(** [self.depends = d] *)
Definition set_depends (d : option string) (self : t) : t :=
  mk (name self) (kind self) d.

(** [properties] of the base class: [{}] *)
Definition properties (self : t) : odict.t string PyVal := odict.empty.
End Resource.

(** An instance of a [Resource] subclass that another module of the package
    defines (security groups, instance profiles, ...): its base fields, the
    [ATTRIBUTES] of its class and the value of its [properties]. *)
Module OtherResource.
Record t : Type := mk {
  base : Resource.t;
  ATTRIBUTES : list string;
  properties : odict.t string PyVal }.
End OtherResource.

(** [class VPC(Resource)] *)
Module VPC.
Record t : Type := mk { base : Resource.t; cidr_block : string }.

Definition ATTRIBUTES : list string :=
  ["CidrBlock"; "CidrBlockAssociations"; "DefaultNetworkAcl";
   "DefaultSecurityGroup"; "Ipv6CidrBlocks"].

Definition init (name cidr_block : string) : outcome t :=
  b <-- Resource.init name (IsAWSType EC2_VPC) ;;
  Return (mk b cidr_block).

Definition ref (self : t) : Ref := mkRef (Resource.name (base self)).

Definition properties (self : t) : odict.t string PyVal :=
  odict.of_list [("CidrBlock", PyStr (cidr_block self))].
End VPC.

(** [class Subnet(Resource)] *)
Module Subnet.
Record t : Type := mk { base : Resource.t; cidr_block : string; vpc : VPC.t }.

Definition init (name : string) (vpc : VPC.t) (cidr_block : string) : outcome t :=
  b <-- Resource.init name (IsAWSType EC2_SUBNET) ;;
  Return (mk b cidr_block vpc).

Definition ref (self : t) : Ref := mkRef (Resource.name (base self)).

Definition properties (self : t) : odict.t string PyVal :=
  odict.of_list [("CidrBlock", PyStr (cidr_block self));
                 ("VpcId", PyRef (VPC.ref (vpc self)))].
End Subnet.

(** [class InternetGateway(Resource)] *)
Module InternetGateway.
Record t : Type := mk { base : Resource.t }.

Definition init (name : string) : outcome t :=
  b <-- Resource.init name (IsAWSType EC2_INTERNET_GATEWAY) ;;
  Return (mk b).

Definition ref (self : t) : Ref := mkRef (Resource.name (base self)).
End InternetGateway.

(** [class VPCGatewayAttachment(Resource)] *)
Module VPCGatewayAttachment.
Record t : Type := mk { base : Resource.t; vpc : VPC.t; gateway : InternetGateway.t }.

Definition init (name : string) (vpc : VPC.t) (gateway : InternetGateway.t)
  : outcome t :=
  b <-- Resource.init name (IsAWSType EC2_VPC_GATEWAY_ATTACHMENT) ;;
  Return (mk b vpc gateway).

Definition properties (self : t) : odict.t string PyVal :=
  odict.of_list [("VpcId", PyRef (VPC.ref (vpc self)));
                 ("InternetGatewayId", PyRef (InternetGateway.ref (gateway self)))].
End VPCGatewayAttachment.

(** [class RouteTable(Resource)] *)
Module RouteTable.
Record t : Type := mk { base : Resource.t; vpc : VPC.t; tags : option PyVal }.

Definition init (name : string) (vpc : VPC.t) (tags : option PyVal) : outcome t :=
  b <-- Resource.init name (IsAWSType EC2_ROUTE_TABLE) ;;
  Return (mk b vpc tags).

Definition ref (self : t) : Ref := mkRef (Resource.name (base self)).

Definition properties (self : t) : odict.t string PyVal :=
  let result := odict.of_list [("VpcId", PyRef (VPC.ref (vpc self)))] in
  match tags self with
  | Some tg => odict.set "Tags" tg result
  | None => result
  end.
End RouteTable.

(** [class Route(Resource)] *)
Module Route.
Record t : Type := mk {
  base : Resource.t;
  route_table : RouteTable.t;
  dest_cidr_block : string;
  gateway : InternetGateway.t;
  gateway_attach : VPCGatewayAttachment.t }.

Definition init (name : string) (route_table : RouteTable.t)
    (dest_cidr_block : string) (gateway : InternetGateway.t)
    (gateway_attach : VPCGatewayAttachment.t) : outcome t :=
  b <-- Resource.init name (IsAWSType EC2_ROUTE) ;;
  let depends := Resource.name (VPCGatewayAttachment.base gateway_attach) in
  Return (mk (Resource.set_depends (Some depends) b)
             route_table dest_cidr_block gateway gateway_attach).

Definition properties (self : t) : odict.t string PyVal :=
  odict.of_list [("RouteTableId", PyRef (RouteTable.ref (route_table self)));
                 ("DestinationCidrBlock", PyStr (dest_cidr_block self));
                 ("GatewayId", PyRef (InternetGateway.ref (gateway self)))].
End Route.

(** [class SubnetRouteTableAssociation(Resource)] *)
Module SubnetRouteTableAssociation.
Record t : Type := mk { base : Resource.t; subnet : Subnet.t; route_table : RouteTable.t }.

Definition init (name : string) (subnet : Subnet.t) (route_table : RouteTable.t)
  : outcome t :=
  b <-- Resource.init name (IsAWSType EC2_SUBNET_ROUTE_TABLE_ASSOCIATION) ;;
  Return (mk b subnet route_table).

Definition properties (self : t) : odict.t string PyVal :=
  odict.of_list [("SubnetId", PyRef (Subnet.ref (subnet self)));
                 ("RouteTableId", PyRef (RouteTable.ref (route_table self)))].
End SubnetRouteTableAssociation.

(** ** Devices of an instance *)

(** [class BlockDevice] has two subclasses, [EphemeralDisk(device_name, id)]
    and [EBSDisk(device_name, size)]. *)
Inductive BlockDevice : Type :=
| EphemeralDisk (device_name : string) (id : Z)
| EBSDisk (device_name : string) (size : Z).

(** The [properties] of a block device. *)
Definition BlockDevice_properties (bd : BlockDevice) : odict.t string PyVal :=
  match bd with
  | EphemeralDisk device_name id =>
      odict.of_list [("DeviceName", PyStr device_name);
                     ("VirtualName", PyStr ("ephemeral" +:+ str_of_int id))]
  | EBSDisk device_name size =>
      odict.of_list
        [("DeviceName", PyStr device_name);
         ("Ebs", PyDict (odict.of_list [("VolumeSize", PyStr (str_of_int size));
                                        ("VolumeType", PyStr "standard")]))]
  end.

(** [class NetworkInterface] *)
Module NetworkInterface.
Record t : Type := mk {
  subnet : Subnet.t;
  public_ip : bool;
  groups : option (list OtherResource.t);
  device_index : option Z;
  description : option string }.

(** [device.device_index = index] *)
Definition set_device_index (index : Z) (self : t) : t :=
  mk (subnet self) (public_ip self) (groups self) (Some index) (description self).

Definition group_ref (g : OtherResource.t) : PyVal :=
  PyRef (mkRef (Resource.name (OtherResource.base g))).

Definition properties (self : t) : odict.t string PyVal :=
  let result :=
    odict.of_list [("AssociatePublicIpAddress", PyBool (public_ip self));
                   ("SubnetId", PyRef (Subnet.ref (subnet self)));
                   ("DeleteOnTermination", PyBool true)] in
  let result :=
    match device_index self with
    | Some i => odict.set "DeviceIndex" (PyInt i) result
    | None => result
    end in
  let result :=
    match groups self with
    | Some (g :: gs) => odict.set "GroupSet" (PyList (map group_ref (g :: gs))) result
    | _ => result
    end in
  match description self with
  | Some d => odict.set "Description" (PyStr d) result
  | None => result
  end.
End NetworkInterface.

(** The argument of [Instance.add]: a network interface, a block device, or
    any other object (of which only [str(device)] matters). *)
Inductive Device : Type :=
| ANetworkInterface (ni : NetworkInterface.t)
| ABlockDevice (bd : BlockDevice)
| OtherDevice (shown : string).

(** [e3.aws.ec2.ami.AMI]: the two fields that an instance reads. *)
Record AMI : Type := mkAMI { ami_id : string; root_device : string }.

(** [max(l)] *)
Definition py_max (l : list Z) : outcome Z :=
  match l with
  | [] => Raise ValueError
  | x :: l' => Return (fold_left (fun m y : Z => if (m <? y)%Z then y else m) l' x)
  end.

(** [class Instance(Resource)] *)
Module Instance.
Record t : Type := mk {
  base : Resource.t;
  image : AMI;
  instance_type : string;
  block_devices : list BlockDevice;
  instance_profile : option OtherResource.t;
  network_interfaces : odict.t Z NetworkInterface.t }.

Definition ATTRIBUTES : list string :=
  ["AvailabilityZone"; "PrivateDnsName"; "PublicDnsName"; "PrivateIp"; "PublicIp"].

Definition set_network_interfaces (d : odict.t Z NetworkInterface.t) (self : t) : t :=
  mk (base self) (image self) (instance_type self) (block_devices self)
     (instance_profile self) d.

Definition set_block_devices (l : list BlockDevice) (self : t) : t :=
  mk (base self) (image self) (instance_type self) l
     (instance_profile self) (network_interfaces self).

(** [Instance.set_instance_profile(self, profile)] *)
Definition set_instance_profile (profile : option OtherResource.t) : M t unit :=
  modify (fun self =>
    mk (base self) (image self) (instance_type self) (block_devices self)
       profile (network_interfaces self)).

(** [Instance.add(self, device)].  The call returns [self], which is the
    state of the computation; the result given here is the device as the
    call leaves it, because an automatically assigned index is written to
    the caller's object. *)
Definition add (device : Device) : M t Device :=
  match device with
  | ANetworkInterface ni =>
      self <- get ;;
      match NetworkInterface.device_index ni with
      | None =>
          m <- lift (py_max (odict.keys (network_interfaces self) ++ [0])%list) ;;
          let index := m + 1 in
          let ni := NetworkInterface.set_device_index index ni in
          modify (fun self =>
            set_network_interfaces
              (odict.set index ni (network_interfaces self)) self) ;;
          ret (ANetworkInterface ni)
      | Some device_index =>
          assert_ (negb (odict.contains device_index (network_interfaces self))) "" ;;
          let index := device_index in
          modify (fun self =>
            set_network_interfaces
              (odict.set index ni (network_interfaces self)) self) ;;
          ret (ANetworkInterface ni)
      end
  | ABlockDevice bd =>
      modify (fun self => set_block_devices (block_devices self ++ [bd])%list self) ;;
      ret device
  | OtherDevice shown =>
      assert_ false ("invalid device " +:+ shown) ;;
      ret device
  end.

(** [Instance.__init__(self, name, image, instance_type, disk_size)].  The
    root disk is attached through [add] before [network_interfaces] is
    assigned; the block-device branch of [add] does not read that field. *)
Definition init (name : string) (image : AMI) (instance_type : string)
    (disk_size : option Z) : outcome t :=
  b <-- Resource.init name (IsAWSType EC2_INSTANCE) ;;
  let self := mk b image instance_type [] None odict.empty in
  match disk_size with
  | Some size =>
      match add (ABlockDevice (EBSDisk (root_device image) size)) self with
      | (Return _, self) => Return self
      | (Raise e, _) => Raise e
      end
  | None => Return self
  end.

(** The [public_ip] property. *)
Definition public_ip (self : t) : GetAtt :=
  mkGetAtt (Resource.name (base self)) "PublicIp".

Definition properties (self : t) : odict.t string PyVal :=
  let result :=
    odict.of_list
      [("ImageId", PyStr (ami_id (image self)));
       ("InstanceType", PyStr (instance_type self));
       ("BlockDeviceMappings",
        PyList (map (fun bd => PyDict (BlockDevice_properties bd))
                    (block_devices self)))] in
  let result :=
    match instance_profile self with
    | Some p =>
        odict.set "IamInstanceProfile"
          (PyRef (mkRef (Resource.name (OtherResource.base p)))) result
    | None => result
    end in
  match network_interfaces self with
  | [] => result
  | _ :: _ =>
      odict.set "NetworkInterfaces"
        (PyList (map (fun ni => PyDict (NetworkInterface.properties ni))
                     (odict.values (network_interfaces self))))
        result
  end.
End Instance.

(** [class Repository(Resource)] of [e3.aws.cfn.codecommit] *)
Module Repository.
Record t : Type := mk {
  base : Resource.t;
  repository_name : string;
  description : string }.

Definition ATTRIBUTES : list string := ["Arn"; "CloneUrlHttp"; "CloneUrlSsh"; "Name"].

(** [Repository.__init__(self, name, description)]: the arguments of the
    call to the base constructor are evaluated before the call. *)
Definition init (name description : string) : outcome t :=
  let resource_name := strip_non_alnum name in
  kind <-- AWSType_getattr "CODE_COMMIT_REPOSITORY" ;;
  b <-- Resource.init resource_name (IsAWSType kind) ;;
  let b := Resource.mk resource_name (Resource.kind b) (Resource.depends b) in
  Return (mk b name description).

Definition properties (self : t) : odict.t string PyVal :=
  odict.of_list [("RepositoryName", PyStr (repository_name self));
                 ("RepositoryDescription", PyStr (description self))].
End Repository.

(** ** Any resource: the methods inherited from [Resource] *)

(** An object whose class is [Resource] or one of its subclasses. *)
Inductive resource : Type :=
| PlainResource (r : Resource.t)
| AnInstance (i : Instance.t)
| AVPC (v : VPC.t)
| ASubnet (s : Subnet.t)
| AnInternetGateway (g : InternetGateway.t)
| AVPCGatewayAttachment (a : VPCGatewayAttachment.t)
| ARouteTable (rt : RouteTable.t)
| ARoute (r : Route.t)
| ASubnetRouteTableAssociation (a : SubnetRouteTableAssociation.t)
| ARepository (r : Repository.t)
| AnOtherResource (o : OtherResource.t).

(** The methods that every resource has, by definition in its class or by
    inheritance from [Resource]. *)
Module AnyResource.
(** The fields that [Resource.__init__] assigns. *)
Definition base (self : resource) : Resource.t :=
  match self with
  | PlainResource r => r
  | AnInstance i => Instance.base i
  | AVPC v => VPC.base v
  | ASubnet s => Subnet.base s
  | AnInternetGateway g => InternetGateway.base g
  | AVPCGatewayAttachment a => VPCGatewayAttachment.base a
  | ARouteTable rt => RouteTable.base rt
  | ARoute r => Route.base r
  | ASubnetRouteTableAssociation a => SubnetRouteTableAssociation.base a
  | ARepository r => Repository.base r
  | AnOtherResource o => OtherResource.base o
  end.

Definition name (self : resource) : string := Resource.name (base self).
Definition kind (self : resource) : AWSType := Resource.kind (base self).
Definition depends (self : resource) : option string := Resource.depends (base self).

(** [self.ATTRIBUTES]: the class variable, as the class of [self] declares
    or inherits it. *)
Definition ATTRIBUTES (self : resource) : list string :=
  match self with
  | AnInstance _ => Instance.ATTRIBUTES
  | AVPC _ => VPC.ATTRIBUTES
  | ARepository _ => Repository.ATTRIBUTES
  | AnOtherResource o => OtherResource.ATTRIBUTES o
  | _ => Resource.ATTRIBUTES
  end.

(** [self.properties]: the property, as the class of [self] defines or
    inherits it. *)
Definition properties (self : resource) : odict.t string PyVal :=
  match self with
  | PlainResource r => Resource.properties r
  | AnInstance i => Instance.properties i
  | AVPC v => VPC.properties v
  | ASubnet s => Subnet.properties s
  | AnInternetGateway g => Resource.properties (InternetGateway.base g)
  | AVPCGatewayAttachment a => VPCGatewayAttachment.properties a
  | ARouteTable rt => RouteTable.properties rt
  | ARoute r => Route.properties r
  | ASubnetRouteTableAssociation a => SubnetRouteTableAssociation.properties a
  | ARepository r => Repository.properties r
  | AnOtherResource o => OtherResource.properties o
  end.

(** [name in self.ATTRIBUTES] *)
Definition in_ATTRIBUTES (attr : string) (self : resource) : bool :=
  bool_decide (attr ∈ ATTRIBUTES self).

(** [Resource.getatt(self, name)] *)
Definition getatt (self : resource) (attr : string) : outcome GetAtt :=
  if in_ATTRIBUTES attr self then Return (mkGetAtt (name self) attr)
  else Raise (AssertionError ("invalid attribute " +:+ attr)).

(** [Resource.ref] *)
Definition ref (self : resource) : Ref := mkRef (name self).

(** [VPC.cidrblock] *)
Definition cidrblock (self : VPC.t) : outcome GetAtt := getatt (AVPC self) "CidrBlock".

(** [Resource.export(self)] *)
Definition export (self : resource) : odict.t string PyVal :=
  let result :=
    odict.of_list [("Type", PyStr (AWSType_value (kind self)));
                   ("Properties", PyDict (properties self))] in
  match depends self with
  | Some d => odict.set "DependsOn" (PyStr d) result
  | None => result
  end.
End AnyResource.

(** ** Stacks *)

(** [re.match(VALID_STACK_NAME, name)] for the pattern
    [^[a-zA-Z][a-zA-Z0-9-]*$]; [$] also matches before a final newline. *)
Definition stack_name_char (c : ascii) : bool := ascii_alnum c || in_range 45 45 c.

Fixpoint stack_name_tail (s : string) : bool :=
  match s with
  | EmptyString => true
  | String c EmptyString => stack_name_char c || in_range 10 10 c
  | String c s' => stack_name_char c && stack_name_tail s'
  end.

Definition match_VALID_STACK_NAME (s : string) : bool :=
  match s with
  | EmptyString => false
  | String c s' => ascii_letter c && stack_name_tail s'
  end.

Definition VALID_STACK_NAME_MAX_LEN : nat := 128.

(** [p in s] for two strings: [p] occurs in [s] as a substring. *)
Fixpoint str_in (p s : string) : bool :=
  String.prefix p s
  || match s with
     | EmptyString => false
     | String _ s' => str_in p s'
     end.

(** An element of the [StackResources] list of the response of
    [describe_stack_resources]: the two entries that are read. *)
Record StackResource : Type := mkStackResource {
  LogicalResourceId : string;
  ResourceStatus : string }.

Module Stack.
Record t : Type := mk {
  resources : odict.t string resource;
  name : string;
  description : option string }.

(** The argument of [Stack.add]: a resource, a stack, or any other object
    (of which only [str(element)] matters). *)
Inductive Element : Type :=
| AResource (r : resource)
| AStack (s : t)
| OtherElement (shown : string).

(** [Stack.__init__(self, name, description)] *)
Definition init (name : string) (description : option string) : outcome t :=
  if match_VALID_STACK_NAME name
     && bool_decide (String.length name <= VALID_STACK_NAME_MAX_LEN)%nat
  then Return (mk odict.empty name description)
  else Raise (AssertionError ("invalid stack name: " +:+ name)).

(** [self.resources[key] = r] *)
Definition set_resource (key : string) (r : resource) (self : t) : t :=
  mk (odict.set key r (resources self)) (name self) (description self).

(** [Stack.add(self, element)].  The call returns [self], which is the
    state of the computation.  The resources of a merged stack are read as
    they are when the call starts: this is what the loop sees when the merged
    stack is another object than [self], and also when it is [self] and
    every entry is registered under the name of its resource (the
    assignments then replace each entry by itself). *)
Definition add (element : Element) : M t unit :=
  match element with
  | OtherElement shown =>
      assert_ false ("a resource or a stack is expected. got " +:+ shown)
  | AResource element =>
      self <- get ;;
      assert_ (negb (odict.contains (AnyResource.name element) (resources self)))
              ("resource already exist: " +:+ AnyResource.name element) ;;
      modify (set_resource (AnyResource.name element) element)
  | AStack element =>
      for_ (odict.values (resources element)) (fun resource =>
        self <- get ;;
        assert_ (negb (odict.contains (name element) (resources self)))
                ("resource already exist: " +:+ AnyResource.name resource) ;;
        modify (set_resource (AnyResource.name resource) resource))
  end.

(** [Stack.__iadd__(self, element)] *)
Definition iadd (element : Element) : M t unit := add element.

(** [Stack.__getitem__(self, key)] *)
Definition getitem (key : string) (self : t) : outcome resource :=
  match odict.get key (resources self) with
  | Some r => Return r
  | None => Raise KeyError
  end.

(** [Stack.export(self)] *)
Definition export (self : t) : odict.t string PyVal :=
  let result :=
    odict.of_list
      [("AWSTemplateFormatVersion", PyStr "2010-09-09");
       ("Resources",
        PyDict (odict.of_list
                  (map (fun v => (AnyResource.name v, PyDict (AnyResource.export v)))
                       (odict.values (resources self)))))] in
  match description self with
  | Some d => odict.set "Description" (PyStr d) result
  | None => result
  end.

Section body.
(** PyYAML's [yaml.dump], with the representers registered above. *)
Variable yaml_dump : PyVal -> string.

(** The [body] property: [yaml.dump(self.export())]. *)
Definition body : M t string :=
  self <- get ;;
  ret (yaml_dump (PyDict (export self))).
End body.

(** [Stack.resource_status(self, client, in_progress_only)], for the response
    [aws_result] that [client.describe_stack_resources] returns: the value
    bound to its key [StackResources], if it has that key. *)
Definition resource_status (aws_result : option (list StackResource))
    (in_progress_only : bool) : outcome (odict.t string string) :=
  match aws_result with
  | None => Raise (AssertionError "")
  | Some stack_resources =>
      Return
        (fold_left
           (fun result res =>
              if str_in "PROGRESS" (ResourceStatus res) || negb in_progress_only
              then odict.set (LogicalResourceId res) (ResourceStatus res) result
              else result)
           stack_resources odict.empty)
  end.
End Stack.


(** ** Names of arbitrary code points *)

(** [Resource.__init__] on a [str] that is the sequence of its code points,
    of any size.  [str.isalnum] follows the table [char_isalnum] below 256;
    for the code points from 256 on it follows the Unicode database of the
    interpreter, which is not part of the repository and is taken as the
    parameter [isalnum_above]. *)
Module Unicode.
Definition str : Type := list N.

(** The code points of a string of the range below 256. *)
Definition of_string (s : string) : str := map N_of_ascii (list_ascii_of_string s).

Record t : Type := mk { name : str; kind : AWSType; depends : option str }.

(** The outcome of the constructor: the object, or the assertion failure
    on the kind or on the name, with the value that its message formats. *)
Inductive result : Type :=
| Constructed (self : t)
| KindAssertion (shown : string)
| NameAssertion (found : str).

Section table.
Variable isalnum_above : N -> bool.

(** [c.isalnum()] for the character of code point [c]. *)
Definition code_point_isalnum (c : N) : bool :=
  if (c <? 256)%N then char_isalnum (ascii_of_N c) else isalnum_above c.

(** [s.isalnum()] *)
Definition isalnum (s : str) : bool :=
  match s with
  | [] => false
  | _ :: _ => forallb code_point_isalnum s
  end.

(** [Resource.__init__(self, name, kind)] *)
Definition init (name : str) (kind : kind_arg) : result :=
  match kind with
  | NotAWSType shown => KindAssertion shown
  | IsAWSType k =>
      if isalnum name then Constructed (mk name k None) else NameAssertion name
  end.
End table.
End Unicode.

(** The code point of an ASCII letter or digit. *)
Definition ascii_alnum_code (c : N) : bool :=
  ((48 <=? c) && (c <=? 57) || (65 <=? c) && (c <=? 90)
   || (97 <=? c) && (c <=? 122))%N.

(** ** Notions used in the statements *)

(** Calling [add] once for each resource of [element], in the insertion
    order of [element]. *)
Definition add_each (element : Stack.t) : M Stack.t unit :=
  for_ (odict.values (Stack.resources element))
       (fun r => Stack.add (Stack.AResource r)).

(** The state of a stack after the resources [l] were assigned to its
    mapping, one after the other, each under its name. *)
Definition assign_all (l : list resource) (self : Stack.t) : Stack.t :=
  fold_left (fun s r => Stack.set_resource (AnyResource.name r) r s) l self.

(** One iteration of the merging loop of [Stack.add], for the stack
    [element] that is merged. *)
Definition merge_step (element : Stack.t) (resource : resource) : M Stack.t unit :=
  self <- get ;;
  assert_ (negb (odict.contains (Stack.name element) (Stack.resources self)))
          ("resource already exist: " +:+ AnyResource.name resource) ;;
  modify (Stack.set_resource (AnyResource.name resource) resource).

(** The last resource of [l] whose name is [k], if any. *)
Definition last_named (k : string) (l : list resource) : option resource :=
  list.last (List.filter (fun r => bool_decide (AnyResource.name r = k)) l).

(** [m] is the greatest element of [l]. *)
Definition greatest (m : Z) (l : list Z) : Prop :=
  m ∈ l /\ forall k, k ∈ l -> k <= m.

(** A name that consists of ASCII letters and digits and is not empty. *)
Definition ascii_alnum_name (n : string) : bool :=
  match n with
  | EmptyString => false
  | String _ _ => all_chars ascii_alnum n
  end.

(** Every entry of the mapping of a stack is registered under the name of
    its resource, as [add] registers it. *)
Definition registered_by_name (self : Stack.t) : Prop :=
  Forall (fun kv => AnyResource.name kv.2 = kv.1) (Stack.resources self).

(** The keys of a dictionary are pairwise distinct. *)
Definition distinct_keys {K V} (d : odict.t K V) : Prop := NoDup (odict.keys d).

(** No two resources of the stack share a name. *)
Definition distinct_names (self : Stack.t) : Prop :=
  NoDup (map AnyResource.name (odict.values (Stack.resources self))).

(** The stacks that the constructor and [add] build: a new stack, and the
    stack that a call of [add] leaves, whatever the outcome of the call. *)
Inductive built : Stack.t -> Prop :=
| built_init (name : string) (description : option string) (self : Stack.t) :
    Stack.init name description = Return self -> built self
| built_add (element : Stack.Element) (self : Stack.t) :
    built self -> built (Stack.add element self).2.

(** The failures of the modelled code under the names that the
    specification gives them. *)
Definition InvalidIdentifierError (name : string) : exn :=
  AssertionError ("resource name should be alphanumeric: found " +:+ name).
Definition InvalidAttributeError (attr : string) : exn :=
  AssertionError ("invalid attribute " +:+ attr).
Definition DuplicateResourceNameError (name : string) : exn :=
  AssertionError ("resource already exist: " +:+ name).
Definition DuplicateDeviceIndexError : exn := AssertionError "".

(** Every network interface of the instance is stored under its own
    device index. *)
Definition interfaces_indexed (self : Instance.t) : Prop :=
  Forall (fun kv => NetworkInterface.device_index kv.2 = Some kv.1)
         (Instance.network_interfaces self).

(** A letter followed by letters, digits and hyphens. *)
Definition plain_stack_name (n : string) : Prop :=
  exists (c : ascii) (body : string),
    n = String c body /\ ascii_letter c = true /\ all_chars stack_name_char body = true.

(** The line feed, as a string. *)
Definition newline : string := String (ascii_of_N 10) EmptyString.

(** The names that the pattern of stack names and the length bound admit:
    at most 128 characters that form a plain name, or a plain name followed
    by one line feed. *)
Definition accepted_stack_name (n : string) : Prop :=
  (String.length n <= VALID_STACK_NAME_MAX_LEN)%nat
  /\ (plain_stack_name n \/ exists m : string, n = m +:+ newline /\ plain_stack_name m).

(** The outcome [o] of a constructor call for the name [n]: when [n] is
    alphanumeric, a resource of that name whose [depends] is [d] and whose
    export has the type [type] and binds [DependsOn] accordingly; otherwise
    the invalid-identifier failure. *)
Definition constructs (o : outcome resource) (n type : string) (d : option string)
  : Prop :=
  if isalnum n
  then exists r : resource,
         o = Return r
         /\ AnyResource.name r = n
         /\ AnyResource.depends r = d
         /\ odict.get "Type" (AnyResource.export r) = Some (PyStr type)
         /\ odict.get "DependsOn" (AnyResource.export r) = PyStr <$> d
  else o = Raise (InvalidIdentifierError n).

(** The statuses that pass the filter of [resource_status]. *)
Definition status_kept (in_progress_only : bool) (res : StackResource) : bool :=
  str_in "PROGRESS" (ResourceStatus res) || negb in_progress_only.

(** The status of the last element of [l] whose logical identifier is
    [id], if any. *)
Definition last_status (id : string) (l : list StackResource) : option string :=
  ResourceStatus <$>
    list.last (List.filter (fun res => bool_decide (LogicalResourceId res = id)) l).

(** *** Example objects *)

Definition vpc_a : resource := AVPC (VPC.mk (Resource.mk "Net" EC2_VPC None) "10.0.0.0/16").
Definition vpc_b : resource := AVPC (VPC.mk (Resource.mk "Net" EC2_VPC None) "10.1.0.0/16").
Definition gateway_x : resource :=
  AnInternetGateway (InternetGateway.mk (Resource.mk "X" EC2_INTERNET_GATEWAY None)).
Definition gateway_y : resource :=
  AnInternetGateway (InternetGateway.mk (Resource.mk "Y" EC2_INTERNET_GATEWAY None)).

Definition stack_a : Stack.t := Stack.mk [("Net", vpc_a)] "a" None.
Definition stack_b : Stack.t := Stack.mk [("Net", vpc_b)] "b" None.
Definition stack_empty : Stack.t := Stack.mk [] "a" None.
Definition stack_x : Stack.t := Stack.mk [("X", gateway_x); ("Y", gateway_y)] "X" None.

Definition ami_example : AMI := mkAMI "ami-0123" "/dev/sda1".
Definition subnet_example : Subnet.t :=
  Subnet.mk (Resource.mk "Sub" EC2_SUBNET None) "10.0.0.0/24"
            (VPC.mk (Resource.mk "Net" EC2_VPC None) "10.0.0.0/16").
Definition interface_auto : NetworkInterface.t :=
  NetworkInterface.mk subnet_example false None None None.
Definition interface_public : NetworkInterface.t :=
  NetworkInterface.mk subnet_example true None None None.
Definition interface_one : NetworkInterface.t :=
  NetworkInterface.mk subnet_example false None (Some 1) None.
Definition instance_web : Instance.t :=
  Instance.mk (Resource.mk "Web" EC2_INSTANCE None) ami_example "t2.micro" [] None [].
Definition instance_web_two : Instance.t :=
  Instance.set_network_interfaces
    [(1, NetworkInterface.set_device_index 1 interface_auto);
     (2, NetworkInterface.set_device_index 2 interface_public)] instance_web.

Definition vpc_main : VPC.t := VPC.mk (Resource.mk "MainVPC" EC2_VPC None) "10.0.0.0/16".
Definition stack_net : Stack.t := Stack.mk [("MainVPC", AVPC vpc_main)] "net" None.
Definition gateway_example : InternetGateway.t :=
  InternetGateway.mk (Resource.mk "Gateway" EC2_INTERNET_GATEWAY None).
Definition attachment_example : VPCGatewayAttachment.t :=
  VPCGatewayAttachment.mk (Resource.mk "Attach" EC2_VPC_GATEWAY_ATTACHMENT None)
                          vpc_main gateway_example.
Definition route_table_example : RouteTable.t :=
  RouteTable.mk (Resource.mk "Table" EC2_ROUTE_TABLE None) vpc_main None.

Definition stack_gateways : Stack.t :=
  Stack.mk [("X", gateway_x); ("Y", gateway_y)] "gateways" None.

Definition instance_web_numbered : Instance.t :=
  Instance.mk (Resource.mk "Web" EC2_INSTANCE None) ami_example "t2.micro" [] None
    [(1, NetworkInterface.mk subnet_example false None (Some 1) None);
     (2, NetworkInterface.mk subnet_example true None (Some 2) None)].


(** The one-character string U+00E9. *)
Definition name_e_acute : string := String (ascii_of_N 233) EmptyString.

(** Non-membership in a list of literals. *)
Ltac not_in_list :=
  let H := fresh "H" in
  intros H;
  repeat (apply elem_of_cons in H as [H|H]; [discriminate H |]);
  by apply elem_of_nil in H.

(** *** Dictionaries *)

Section odict_facts.
Context {K V : Type} `{EqDecision K}.
Implicit Types (d : odict.t K V) (k : K) (v : V).

Lemma get_set_eq d k v : odict.get k (odict.set k v d) = Some v.
Proof.
  induction d as [|[k' v'] d IH]; simpl.
  - by rewrite decide_True.
  - destruct (decide (k = k')) as [->|Hne]; simpl.
    + by rewrite decide_True.
    + by rewrite decide_False.
Qed.

Lemma get_set_ne d k k' v : k <> k' -> odict.get k' (odict.set k v d) = odict.get k' d.
Proof.
  intros Hne. induction d as [|[k0 v0] d IH]; simpl.
  - by rewrite decide_False.
  - destruct (decide (k = k0)) as [->|Hk]; simpl.
    + by rewrite !decide_False.
    + destruct (decide (k' = k0)); [done | apply IH].
Qed.

Lemma contains_true d k : odict.contains k d = true <-> k ∈ odict.keys d.
Proof.
  unfold odict.contains, odict.keys.
  induction d as [|[k' v'] d IH]; simpl.
  - split; [done | by intros ?%elem_of_nil].
  - destruct (decide (k = k')) as [->|Hne].
    + split; [intros _; apply list_elem_of_here | done].
    + rewrite IH. split; [apply list_elem_of_further |].
      intros [?|?]%elem_of_cons; [done | assumption].
Qed.

Lemma contains_false d k : odict.contains k d = false <-> k ∉ odict.keys d.
Proof.
  rewrite <- contains_true. destruct (odict.contains k d); split; done.
Qed.

Lemma contains_get_None d k : odict.contains k d = false <-> odict.get k d = None.
Proof. unfold odict.contains. by destruct (odict.get k d). Qed.

(** Assigning to an absent key appends the entry. *)
Lemma set_absent d k v : k ∉ odict.keys d -> odict.set k v d = (d ++ [(k, v)])%list.
Proof.
  induction d as [|[k' v'] d IH]; simpl; [done |].
  intros Hn. rewrite decide_False.
  - rewrite IH; [done |]. intros ?. apply Hn. by apply list_elem_of_further.
  - intros ->. apply Hn. apply list_elem_of_here.
Qed.

(** Assigning to a present key keeps the keys and their order. *)
Lemma keys_set_present d k v : k ∈ odict.keys d -> odict.keys (odict.set k v d) = odict.keys d.
Proof.
  induction d as [|[k' v'] d IH]; simpl.
  - by intros ?%elem_of_nil.
  - intros Hin. destruct (decide (k = k')) as [->|Hne]; simpl; [done |].
    f_equal. apply IH. apply elem_of_cons in Hin as [?|?]; [done | assumption].
Qed.

Lemma distinct_keys_set d k v : distinct_keys d -> distinct_keys (odict.set k v d).
Proof.
  unfold distinct_keys. intros Hd.
  destruct (decide (k ∈ odict.keys d)) as [Hin|Hn].
  - by rewrite keys_set_present.
  - rewrite set_absent by done. unfold odict.keys. rewrite map_app. simpl.
    apply list.NoDup_app. split; [done |]. split; [| apply NoDup_singleton].
    intros x Hx ->%list_elem_of_singleton. by apply Hn.
Qed.

(** A display or comprehension whose keys are pairwise distinct yields its
    entries in the order in which they are written. *)
Lemma of_list_distinct_from (l acc : list (K * V)) :
  NoDup (map fst (acc ++ l)%list) ->
  fold_left (fun d kv => odict.set kv.1 kv.2 d) l acc = (acc ++ l)%list.
Proof.
  revert acc. induction l as [|[k v] l IH]; intros acc Hnd; simpl.
  - by rewrite app_nil_r.
  - rewrite set_absent.
    + rewrite IH; rewrite <- app_assoc; [done | exact Hnd].
    + rewrite map_app in Hnd. apply list.NoDup_app in Hnd as (_ & Hdisj & _).
      intros Hin. apply (Hdisj k Hin). simpl. apply list_elem_of_here.
Qed.

Lemma of_list_distinct (l : list (K * V)) : NoDup (map fst l) -> odict.of_list l = l.
Proof. intros Hnd. unfold odict.of_list, odict.empty. by rewrite of_list_distinct_from. Qed.
End odict_facts.

(** *** Running [Stack.add] *)

Lemma add_stack_unfold (element self : Stack.t) :
  Stack.add (Stack.AStack element) self
  = for_ (odict.values (Stack.resources element)) (merge_step element) self.
Proof. reflexivity. Qed.

Lemma merge_step_run (element : Stack.t) (r : resource) (self : Stack.t) :
  merge_step element r self
  = if odict.contains (Stack.name element) (Stack.resources self)
    then (Raise (AssertionError ("resource already exist: " +:+ AnyResource.name r)), self)
    else (Return tt, Stack.set_resource (AnyResource.name r) r self).
Proof.
  unfold merge_step, bind, get, assert_, modify, ret, raise.
  by destruct (odict.contains _ _).
Qed.

Lemma add_resource_run (r : resource) (self : Stack.t) :
  Stack.add (Stack.AResource r) self
  = if odict.contains (AnyResource.name r) (Stack.resources self)
    then (Raise (DuplicateResourceNameError (AnyResource.name r)), self)
    else (Return tt, Stack.set_resource (AnyResource.name r) r self).
Proof.
  unfold Stack.add, bind, get, assert_, modify, ret, raise.
  by destruct (odict.contains _ _).
Qed.

Lemma for_cons {S A} (x : A) (l : list A) (body : A -> M S unit) (s : S) :
  for_ (x :: l) body s
  = match body x s with
    | (Return _, s') => for_ l body s'
    | (Raise e, s') => (Raise e, s')
    end.
Proof. reflexivity. Qed.

(** A merging loop that raises does so at a resource that it names, after it
    assigned the resources that precede it, and nothing else; the test that
    fails there passed at the start unless the loop raises at once. *)
Lemma merge_loop_raises (element : Stack.t) (l : list resource) :
  forall (self self' : Stack.t) (e : exn),
    for_ l (merge_step element) self = (Raise e, self') ->
    exists (done : list resource) (r : resource) (rest : list resource),
      l = (done ++ r :: rest)%list
      /\ e = DuplicateResourceNameError (AnyResource.name r)
      /\ self' = assign_all done self
      /\ odict.contains (Stack.name element) (Stack.resources self') = true
      /\ (done <> [] ->
          odict.contains (Stack.name element) (Stack.resources self) = false).
Proof.
  induction l as [|r l IH]; intros self self' e Hrun.
  - discriminate Hrun.
  - rewrite for_cons, merge_step_run in Hrun.
    destruct (odict.contains _ _) eqn:Hc.
    + injection Hrun as <- <-. by exists [], r, l.
    + apply IH in Hrun as (done & r' & rest & -> & -> & -> & Hc' & _).
      by exists (r :: done), r', rest.
Qed.

Lemma assign_all_snoc (l : list resource) (r : resource) (self : Stack.t) :
  assign_all (l ++ [r]) self
  = Stack.set_resource (AnyResource.name r) r (assign_all l self).
Proof. unfold assign_all. by rewrite fold_left_app. Qed.

Lemma last_named_snoc (k : string) (l : list resource) (r : resource) :
  last_named k (l ++ [r])
  = if bool_decide (AnyResource.name r = k) then Some r else last_named k l.
Proof.
  unfold last_named. rewrite List.filter_app. simpl.
  destruct (bool_decide _); [by rewrite last_snoc | by rewrite app_nil_r].
Qed.

(** Looking up a name after resources were assigned finds the last assigned
    resource of that name, and otherwise what was registered before. *)
Lemma get_assign_all (k : string) (l : list resource) (self : Stack.t) :
  odict.get k (Stack.resources (assign_all l self))
  = match last_named k l with
    | Some r => Some r
    | None => odict.get k (Stack.resources self)
    end.
Proof.
  induction l as [|r l IH] using rev_ind; [done |].
  rewrite assign_all_snoc, last_named_snoc. simpl.
  destruct (bool_decide_reflect (AnyResource.name r = k)) as [<-|Hne].
  - apply get_set_eq.
  - by rewrite get_set_ne.
Qed.

Lemma assign_all_name (l : list resource) (self : Stack.t) :
  Stack.name (assign_all l self) = Stack.name self
  /\ Stack.description (assign_all l self) = Stack.description self.
Proof.
  induction l as [|r l IH] using rev_ind; [done |].
  rewrite assign_all_snoc. exact IH.
Qed.

(** *** The invariants of a stack *)

Lemma set_resource_registered (r : resource) (self : Stack.t) :
  registered_by_name self ->
  registered_by_name (Stack.set_resource (AnyResource.name r) r self).
Proof.
  unfold registered_by_name. destruct self as [d n ds]. simpl. clear n ds.
  induction d as [|[k v] d IH]; simpl; intros Hreg.
  - by constructor.
  - inversion Hreg as [|? ? Hk Hd]; subst.
    destruct (decide (AnyResource.name r = k)); constructor; auto.
Qed.

Lemma set_resource_distinct (k : string) (r : resource) (self : Stack.t) :
  distinct_keys (Stack.resources self) ->
  distinct_keys (Stack.resources (Stack.set_resource k r self)).
Proof. apply distinct_keys_set. Qed.

Lemma assign_all_invariant (l : list resource) (self : Stack.t) :
  registered_by_name self /\ distinct_keys (Stack.resources self) ->
  registered_by_name (assign_all l self)
  /\ distinct_keys (Stack.resources (assign_all l self)).
Proof.
  revert self. induction l as [|r l IH]; intros self [Hreg Hd]; simpl; [done |].
  apply IH. split; [by apply set_resource_registered | by apply set_resource_distinct].
Qed.

(** *** Merging a stack *)

Lemma keys_set_resource (k : string) (r : resource) (self : Stack.t) (n : string) :
  n ∈ odict.keys (Stack.resources (Stack.set_resource k r self)) ->
  n = k \/ n ∈ odict.keys (Stack.resources self).
Proof.
  simpl. destruct (decide (k ∈ odict.keys (Stack.resources self))) as [Hin|Hn].
  - rewrite keys_set_present by done. by right.
  - rewrite set_absent by done. unfold odict.keys. rewrite map_app. simpl.
    intros [?|?%list_elem_of_singleton]%elem_of_app; [by right | by left].
Qed.

(** The merging loop tests the name of the merged stack, never the names
    of its resources: when that name is not a key of the target and not the
    name of a merged resource, every resource is assigned, whatever the
    target holds. *)
Lemma merge_assigns_all (element : Stack.t) (l : list resource) :
  forall self : Stack.t,
    Stack.name element ∉ odict.keys (Stack.resources self) ->
    Stack.name element ∉ map AnyResource.name l ->
    for_ l (merge_step element) self = (Return tt, assign_all l self).
Proof.
  induction l as [|r l IH]; intros self Hself Hl; [done |].
  rewrite for_cons, merge_step_run.
  apply contains_false in Hself as Hc. rewrite Hc. simpl.
  apply IH.
  - intros [Heq|?]%keys_set_resource; [| done].
    apply Hl. simpl. rewrite Heq. apply list_elem_of_here.
  - intros ?. apply Hl. simpl. by apply list_elem_of_further.
Qed.

(** C1 (evaluation at the failing input): stack [a] holds a resource named
    [Net], stack [b] holds another resource named [Net]; merging [b] into
    [a] returns normally and replaces the entry of [a]. *)
Theorem merge_overwrites_existing_name :
  Stack.getitem "Net" stack_a = Return vpc_a
  /\ Stack.getitem "Net" stack_b = Return vpc_b
  /\ Stack.add (Stack.AStack stack_b) stack_a
     = (Return tt, Stack.mk [("Net", vpc_b)] "a" None).
Proof. repeat split. Qed.

(** C2 (evaluation at the failing input): merging stack [b] into stack [a]
    returns normally, while adding the only resource of [b] to [a] on its
    own raises the duplicate-name failure and leaves [a] as it was. *)
Theorem merge_differs_from_individual_adds :
  Stack.add (Stack.AStack stack_b) stack_a
  = (Return tt, Stack.mk [("Net", vpc_b)] "a" None)
  /\ add_each stack_b stack_a = (Raise (DuplicateResourceNameError "Net"), stack_a).
Proof. split; reflexivity. Qed.

(** *** Failure of [add] *)

(** C3 (counterexample): merging the stack named [X], which holds the
    resources [X] and [Y], into an empty stack raises at the second
    resource, after the first one was registered. *)
Lemma add_failure_not_atomic :
  Stack.resources stack_empty = []
  /\ Stack.add (Stack.AStack stack_x) stack_empty
     = (Raise (DuplicateResourceNameError "Y"), Stack.mk [("X", gateway_x)] "a" None).
Proof. split; reflexivity. Qed.

(** C3 (amended): when [add] raises for a single resource, or for an object
    that is neither a resource nor a stack, the stack is exactly what it was
    before the call.  When a merge raises, the failure is raised at a
    resource of the merged stack, which it names; the lookup of a name then
    returns the last resource of that name among the resources that precede
    the failing one in the insertion order of the merged stack, and what it
    returned before the call when there is none; the name and the
    description of the stack are kept; and the mapping is what it was before
    the call if and only if the failure is raised at the first resource: the
    merge is not rolled back. *)
Theorem add_failure_state (self self' : Stack.t) (element : Stack.Element) (e : exn) :
  Stack.add element self = (Raise e, self') ->
  match element with
  | Stack.AResource r =>
      self' = self
      /\ e = DuplicateResourceNameError (AnyResource.name r)
      /\ AnyResource.name r ∈ odict.keys (Stack.resources self)
  | Stack.AStack b =>
      exists (done : list resource) (r : resource) (rest : list resource),
        odict.values (Stack.resources b) = (done ++ r :: rest)%list
        /\ e = DuplicateResourceNameError (AnyResource.name r)
        /\ (forall k : string,
              Stack.getitem k self'
              = match last_named k done with
                | Some r' => Return r'
                | None => Stack.getitem k self
                end)
        /\ Stack.name self' = Stack.name self
        /\ Stack.description self' = Stack.description self
        /\ (Stack.resources self' = Stack.resources self <-> done = [])
  | Stack.OtherElement shown =>
      self' = self
      /\ e = AssertionError ("a resource or a stack is expected. got " +:+ shown)
  end.
Proof.
  destruct element as [r|b|shown]; intros Hrun.
  - rewrite add_resource_run in Hrun.
    destruct (odict.contains _ _) eqn:Hc; [| discriminate Hrun].
    injection Hrun as <- <-. repeat split. by apply contains_true.
  - rewrite add_stack_unfold in Hrun.
    apply merge_loop_raises in Hrun as (done & r & rest & Hl & -> & -> & Hc & Hstart).
    exists done, r, rest. split; [done |]. split; [done |].
    destruct (assign_all_name done self) as [Hn Hd].
    split; [| split; [done | split; [done |]]].
    + intros k. unfold Stack.getitem. rewrite get_assign_all.
      by destruct (last_named k done).
    + split.
      * intros Heq. destruct done as [|r0 done]; [done |].
        rewrite Heq, Hstart in Hc; done.
      * by intros ->.
  - by injection Hrun as <- <-.
Qed.

Lemma add_failure_state_witness :
  exists (done : list resource) (r : resource) (rest : list resource),
    odict.values (Stack.resources stack_x) = (done ++ r :: rest)%list
    /\ DuplicateResourceNameError "Y" = DuplicateResourceNameError (AnyResource.name r)
    /\ (forall k : string,
          Stack.getitem k (Stack.mk [("X", gateway_x)] "a" None)
          = match last_named k done with
            | Some r' => Return r'
            | None => Stack.getitem k stack_empty
            end)
    /\ Stack.name (Stack.mk [("X", gateway_x)] "a" None) = Stack.name stack_empty
    /\ Stack.description (Stack.mk [("X", gateway_x)] "a" None)
       = Stack.description stack_empty
    /\ (Stack.resources (Stack.mk [("X", gateway_x)] "a" None)
        = Stack.resources stack_empty <-> done = []).
Proof.
  exact (add_failure_state stack_empty (Stack.mk [("X", gateway_x)] "a" None)
           (Stack.AStack stack_x) (DuplicateResourceNameError "Y") eq_refl).
Defined.

(** *** Devices of an instance *)

Lemma fold_max_greatest (l : list Z) :
  forall x : Z,
    greatest (fold_left (fun m y : Z => if (m <? y)%Z then y else m) l x) (x :: l).
Proof.
  induction l as [|y l IH]; intros x; simpl.
  - split; [apply list_elem_of_here |].
    intros k ->%list_elem_of_singleton. lia.
  - destruct (IH (if (x <? y)%Z then y else x)) as [Hin Hle]. split.
    + apply elem_of_cons in Hin as [->|Hin].
      * destruct (x <? y)%Z; [apply list_elem_of_further |]; apply list_elem_of_here.
      * by do 2 apply list_elem_of_further.
    + intros k Hk.
      assert (Hx : (if (x <? y)%Z then y else x) <=
                   fold_left (fun m y0 : Z => if (m <? y0)%Z then y0 else m) l
                     (if (x <? y)%Z then y else x)).
      { apply Hle. apply list_elem_of_here. }
      apply elem_of_cons in Hk as [->|Hk].
      * destruct (Z.ltb_spec x y); lia.
      * apply elem_of_cons in Hk as [->|Hk].
        -- destruct (Z.ltb_spec x y); lia.
        -- apply Hle. by apply list_elem_of_further.
Qed.

Lemma greatest_with_zero (m : Z) (l : list Z) :
  greatest m (l ++ [0])%list -> greatest m (0 :: l).
Proof.
  intros [Hin Hle]. split.
  - apply elem_of_app in Hin as [?| ->%list_elem_of_singleton].
    + by apply list_elem_of_further.
    + apply list_elem_of_here.
  - intros k [->|?]%elem_of_cons; apply Hle; apply elem_of_app.
    + right. apply list_elem_of_here.
    + by left.
Qed.

(** [max(keys + [0])] never raises and is the greatest element of the keys
    and zero. *)
Lemma py_max_keys (l : list Z) :
  exists m : Z, py_max (l ++ [0])%list = Return m /\ greatest m (0 :: l).
Proof.
  destruct l as [|x l]; simpl.
  - exists 0. split; [done |]. split; [apply list_elem_of_here |].
    intros k ->%list_elem_of_singleton. lia.
  - eexists. split; [reflexivity |].
    apply (greatest_with_zero _ (x :: l)). apply fold_max_greatest.
Qed.

Lemma Instance_init_fresh (name : string) (image : AMI) (type : string)
    (disk_size : option Z) (self : Instance.t) :
  Instance.init name image type disk_size = Return self ->
  Instance.network_interfaces self = [].
Proof.
  unfold Instance.init. destruct (Resource.init _ _) as [b|e]; simpl; [| done].
  destruct disk_size; simpl; intros [= <-]; done.
Qed.

Lemma add_interface_auto (self : Instance.t) (ni : NetworkInterface.t) :
  NetworkInterface.device_index ni = None ->
  exists m : Z,
    greatest m (0 :: odict.keys (Instance.network_interfaces self))
    /\ Instance.add (ANetworkInterface ni) self
       = (Return (ANetworkInterface (NetworkInterface.set_device_index (m + 1) ni)),
          Instance.set_network_interfaces
            (Instance.network_interfaces self
             ++ [(m + 1, NetworkInterface.set_device_index (m + 1) ni)])%list
            self).
Proof.
  intros Hnone.
  destruct (py_max_keys (odict.keys (Instance.network_interfaces self)))
    as (m & Hmax & Hgreatest).
  exists m. split; [done |].
  unfold Instance.add, bind, get, lift, modify, ret. rewrite Hnone, Hmax. simpl.
  rewrite set_absent; [done |].
  intros Hin. destruct Hgreatest as [_ Hle].
  assert (m + 1 <= m); [| lia]. apply Hle. by apply list_elem_of_further.
Qed.

(** C4: attaching devices to an instance.
    - A network interface whose device index is unset receives the index
      [m + 1], where [m] is the greatest element of the existing indices
      and zero: the index is written to the interface, the interface is
      stored under it after the interfaces already attached, and nothing
      else of the instance changes.
    - Two such interfaces attached to a fresh instance receive the indices
      1 and 2.
    - An interface whose explicit index is already used makes [add] raise
      the duplicate-index failure, and the instance is unchanged.
    - A block device is appended to the list of block devices, and nothing
      else of the instance changes. *)
Theorem Instance_add_devices :
  (forall (self : Instance.t) (ni : NetworkInterface.t),
     NetworkInterface.device_index ni = None ->
     exists m : Z,
       greatest m (0 :: odict.keys (Instance.network_interfaces self))
       /\ Instance.add (ANetworkInterface ni) self
          = (Return
               (ANetworkInterface
                  (NetworkInterface.mk
                     (NetworkInterface.subnet ni) (NetworkInterface.public_ip ni)
                     (NetworkInterface.groups ni) (Some (m + 1))
                     (NetworkInterface.description ni))),
             Instance.mk
               (Instance.base self) (Instance.image self)
               (Instance.instance_type self) (Instance.block_devices self)
               (Instance.instance_profile self)
               (Instance.network_interfaces self
                ++ [(m + 1,
                     NetworkInterface.mk
                       (NetworkInterface.subnet ni) (NetworkInterface.public_ip ni)
                       (NetworkInterface.groups ni) (Some (m + 1))
                       (NetworkInterface.description ni))])%list))
  /\ (forall (name : string) (image : AMI) (type : string) (disk_size : option Z)
        (self : Instance.t) (ni1 ni2 : NetworkInterface.t),
        Instance.init name image type disk_size = Return self ->
        NetworkInterface.device_index ni1 = None ->
        NetworkInterface.device_index ni2 = None ->
        (Instance.add (ANetworkInterface ni1) ;; Instance.add (ANetworkInterface ni2)) self
        = (Return
             (ANetworkInterface
                (NetworkInterface.mk
                   (NetworkInterface.subnet ni2) (NetworkInterface.public_ip ni2)
                   (NetworkInterface.groups ni2) (Some 2)
                   (NetworkInterface.description ni2))),
           Instance.mk
             (Instance.base self) (Instance.image self)
             (Instance.instance_type self) (Instance.block_devices self)
             (Instance.instance_profile self)
             [(1, NetworkInterface.mk
                    (NetworkInterface.subnet ni1) (NetworkInterface.public_ip ni1)
                    (NetworkInterface.groups ni1) (Some 1)
                    (NetworkInterface.description ni1));
              (2, NetworkInterface.mk
                    (NetworkInterface.subnet ni2) (NetworkInterface.public_ip ni2)
                    (NetworkInterface.groups ni2) (Some 2)
                    (NetworkInterface.description ni2))]))
  /\ (forall (self : Instance.t) (ni : NetworkInterface.t) (i : Z),
        NetworkInterface.device_index ni = Some i ->
        i ∈ odict.keys (Instance.network_interfaces self) ->
        Instance.add (ANetworkInterface ni) self = (Raise DuplicateDeviceIndexError, self))
  /\ (forall (self : Instance.t) (bd : BlockDevice),
        Instance.add (ABlockDevice bd) self
        = (Return (ABlockDevice bd),
           Instance.mk
             (Instance.base self) (Instance.image self)
             (Instance.instance_type self) (Instance.block_devices self ++ [bd])%list
             (Instance.instance_profile self) (Instance.network_interfaces self))).
Proof.
  split; [| split; [| split]].
  - intros self ni Hnone.
    destruct (add_interface_auto self ni Hnone) as (m & Hm & Hadd).
    exists m. split; [done |]. by rewrite Hadd.
  - intros name image type disk_size self ni1 ni2 Hinit H1 H2.
    apply Instance_init_fresh in Hinit.
    destruct self as [b im ty bds profile nis]. simpl in Hinit. subst nis.
    unfold Instance.add, bind, get, lift, modify, ret.
    rewrite H1, H2. reflexivity.
  - intros self ni i Hi Hin. apply contains_true in Hin.
    unfold Instance.add, bind, get, assert_, raise. by rewrite Hi, Hin.
  - reflexivity.
Qed.

(** Example 3 of the specification, through the theorem. *)
Lemma Instance_add_devices_witness :
  (Instance.add (ANetworkInterface interface_auto) ;;
   Instance.add (ANetworkInterface interface_public)) instance_web
  = (Return (ANetworkInterface
               (NetworkInterface.mk subnet_example true None (Some 2) None)),
     instance_web_numbered)
  /\ Instance.add (ANetworkInterface interface_one) instance_web_numbered
     = (Raise DuplicateDeviceIndexError, instance_web_numbered).
Proof.
  split.
  - exact (proj1 (proj2 Instance_add_devices)
             "Web" ami_example "t2.micro" None instance_web
             interface_auto interface_public eq_refl eq_refl eq_refl).
  - apply (proj1 (proj2 (proj2 Instance_add_devices))) with (i := 1).
    + reflexivity.
    + apply contains_true. reflexivity.
Defined.

(** *** Resource names *)

Lemma all_chars_spec (p : ascii -> bool) (s : string) :
  all_chars p s = true <-> forall c, c ∈ list_ascii_of_string s -> p c = true.
Proof.
  induction s as [|c s IH]; simpl.
  - split; [by intros _ c ?%elem_of_nil | done].
  - rewrite andb_true_iff, IH. split.
    + intros [Hc Hs] c' [->|?]%elem_of_cons; auto.
    + intros Hall. split; [apply Hall, list_elem_of_here |].
      intros c' Hc'. by apply Hall, list_elem_of_further.
Qed.

Lemma isalnum_spec (s : string) :
  isalnum s = true
  <-> s <> "" /\ forall c, c ∈ list_ascii_of_string s -> char_isalnum c = true.
Proof.
  unfold isalnum. destruct s as [|c s].
  - split; [done | by intros [? _]].
  - rewrite all_chars_spec. split; [by intros ? | by intros [_ ?]].
Qed.

Lemma ascii_alnum_isalnum (c : ascii) : ascii_alnum c = true -> char_isalnum c = true.
Proof. unfold char_isalnum. by intros ->. Qed.

Lemma ascii_alnum_name_isalnum (s : string) : ascii_alnum_name s = true -> isalnum s = true.
Proof.
  unfold ascii_alnum_name, isalnum. destruct s as [|c s]; [done |].
  rewrite !all_chars_spec. intros Hall c' Hc'. by apply ascii_alnum_isalnum, Hall.
Qed.

Lemma Resource_init_run (n : string) (k : AWSType) :
  Resource.init n (IsAWSType k)
  = if isalnum n then Return (Resource.mk n k None)
    else Raise (InvalidIdentifierError n).
Proof. reflexivity. Qed.

(** C5 (counterexample): the one-character name U+00E9 (a Latin small letter
    e with acute) is not an ASCII name, and a resource of that name is
    constructed. *)
Lemma Resource_init_accepts_non_ascii :
  ascii_alnum_name name_e_acute = false
  /\ Resource.init name_e_acute (IsAWSType EC2_VPC)
     = Return (Resource.mk name_e_acute EC2_VPC None).
Proof. split; reflexivity. Qed.

(** On names of code points below 256: for a recognized kind, the
    construction of a resource named [n] succeeds if and only if [n] is not
    empty and each of its characters is alphanumeric in the sense of
    [str.isalnum]; every non-empty name of ASCII letters and digits is of
    that kind; the empty name and every name with a character that is not
    alphanumeric in that sense raise the invalid-identifier failure. *)
Theorem Resource_init_name (n : string) (k : AWSType) :
  (Resource.init n (IsAWSType k) = Return (Resource.mk n k None)
   <-> n <> "" /\ forall c, c ∈ list_ascii_of_string n -> char_isalnum c = true)
  /\ (ascii_alnum_name n = true ->
      Resource.init n (IsAWSType k) = Return (Resource.mk n k None))
  /\ (n = "" \/ (exists c, c ∈ list_ascii_of_string n /\ char_isalnum c = false) ->
      Resource.init n (IsAWSType k) = Raise (InvalidIdentifierError n)).
Proof.
  rewrite Resource_init_run, <- isalnum_spec. repeat split.
  - by destruct (isalnum n).
  - by intros ->.
  - by intros ->%ascii_alnum_name_isalnum.
  - intros Hbad. destruct (isalnum n) eqn:Hn; [| done].
    apply isalnum_spec in Hn as [Hne Hall].
    destruct Hbad as [->|(c & Hc & Hfalse)]; [done |].
    apply Hall in Hc. congruence.
Qed.

Lemma Resource_init_name_witness :
  Resource.init "MainVPC" (IsAWSType EC2_VPC) = Return (Resource.mk "MainVPC" EC2_VPC None)
  /\ Resource.init "Main-VPC" (IsAWSType EC2_VPC) = Raise (InvalidIdentifierError "Main-VPC").
Proof.
  split.
  - exact (proj1 (proj2 (Resource_init_name "MainVPC" EC2_VPC)) eq_refl).
  - apply (proj2 (proj2 (Resource_init_name "Main-VPC" EC2_VPC))).
    right. exists "-"%char. split; [| reflexivity].
    do 4 apply list_elem_of_further. apply list_elem_of_here.
Defined.

Lemma code_point_of_ascii (isalnum_above : N -> bool) (c : ascii) :
  Unicode.code_point_isalnum isalnum_above (N_of_ascii c) = char_isalnum c.
Proof.
  unfold Unicode.code_point_isalnum.
  pose proof (N_ascii_bounded c) as Hlt. apply N.ltb_lt in Hlt.
  by rewrite Hlt, ascii_N_embedding.
Qed.

Lemma ascii_code_isalnum (isalnum_above : N -> bool) (c : N) :
  ascii_alnum_code c = true -> Unicode.code_point_isalnum isalnum_above c = true.
Proof.
  intros Hc. unfold Unicode.code_point_isalnum.
  assert (Hlt : (c < 256)%N).
  { unfold ascii_alnum_code in Hc.
    repeat (apply orb_true_iff in Hc as [Hc|Hc]);
      apply andb_true_iff in Hc as [_ Hc%N.leb_le]; lia. }
  apply N.ltb_lt in Hlt as Hltb. rewrite Hltb.
  apply ascii_alnum_isalnum. unfold ascii_alnum, in_range, code.
  by rewrite N_ascii_embedding.
Qed.

Lemma isalnum_of_string (isalnum_above : N -> bool) (s : string) :
  Unicode.isalnum isalnum_above (Unicode.of_string s) = isalnum s.
Proof.
  assert (Hall : forallb (Unicode.code_point_isalnum isalnum_above) (Unicode.of_string s)
                 = all_chars char_isalnum s).
  { induction s as [|c s IH]; [done |].
    change (Unicode.of_string (String c s)) with (N_of_ascii c :: Unicode.of_string s).
    simpl. by rewrite code_point_of_ascii, IH. }
  destruct s as [|c s]; [done |]. exact Hall.
Qed.

Lemma Unicode_isalnum_spec (isalnum_above : N -> bool) (n : Unicode.str) :
  Unicode.isalnum isalnum_above n = true
  <-> n <> [] /\ forall c, c ∈ n -> Unicode.code_point_isalnum isalnum_above c = true.
Proof.
  unfold Unicode.isalnum. destruct n as [|c n].
  - split; [done | by intros [? _]].
  - rewrite forallb_forall. split.
    + intros Hall. split; [done |]. intros c' Hc'. by apply Hall, list_elem_of_In.
    + intros [_ Hall] c' Hc'. by apply Hall, list_elem_of_In.
Qed.

(** C5 (amended): for every name [n], a sequence of code points of any
    size, and a recognized kind, the construction of a resource named [n]
    succeeds if and only if [n] is not empty and each of its characters is
    alphanumeric in the sense of [str.isalnum]; every non-empty name of
    ASCII letters and digits is of that kind; the empty name and every name
    with a character that is not alphanumeric in that sense raise the
    failure on the name; and on the names of code points below 256 the
    construction does what [Resource.init] does. *)
Theorem Resource_init_every_name
    (isalnum_above : N -> bool) (n : Unicode.str) (k : AWSType) :
  (Unicode.init isalnum_above n (IsAWSType k)
   = Unicode.Constructed (Unicode.mk n k None)
   <-> n <> []
       /\ forall c, c ∈ n -> Unicode.code_point_isalnum isalnum_above c = true)
  /\ (n <> [] ->
      (forall c, c ∈ n -> ascii_alnum_code c = true) ->
      Unicode.init isalnum_above n (IsAWSType k)
      = Unicode.Constructed (Unicode.mk n k None))
  /\ (n = []
      \/ (exists c, c ∈ n /\ Unicode.code_point_isalnum isalnum_above c = false) ->
      Unicode.init isalnum_above n (IsAWSType k) = Unicode.NameAssertion n)
  /\ (forall s : string,
        (Unicode.init isalnum_above (Unicode.of_string s) (IsAWSType k)
         = Unicode.Constructed (Unicode.mk (Unicode.of_string s) k None)
         <-> Resource.init s (IsAWSType k) = Return (Resource.mk s k None))
        /\ (Unicode.init isalnum_above (Unicode.of_string s) (IsAWSType k)
            = Unicode.NameAssertion (Unicode.of_string s)
            <-> Resource.init s (IsAWSType k) = Raise (InvalidIdentifierError s))).
Proof.
  unfold Unicode.init. rewrite <- Unicode_isalnum_spec. repeat split.
  - by destruct (Unicode.isalnum isalnum_above n).
  - by intros ->.
  - intros Hne Hascii.
    assert (Hn : Unicode.isalnum isalnum_above n = true).
    { apply Unicode_isalnum_spec. split; [done |].
      intros c Hc. by apply ascii_code_isalnum, Hascii. }
    by rewrite Hn.
  - intros Hbad. destruct (Unicode.isalnum isalnum_above n) eqn:Hn; [| done].
    apply Unicode_isalnum_spec in Hn as [Hne Hall].
    destruct Hbad as [->|(c & Hc & Hfalse)]; [done |].
    apply Hall in Hc. congruence.
  - rewrite isalnum_of_string, Resource_init_run. by destruct (isalnum s).
  - rewrite isalnum_of_string, Resource_init_run. by destruct (isalnum s).
  - rewrite isalnum_of_string, Resource_init_run. by destruct (isalnum s).
  - rewrite isalnum_of_string, Resource_init_run. by destruct (isalnum s).
Qed.

(** The name U+4E2D is accepted and the name of an ASCII letter and U+2014
    is rejected, under a table that classifies these two code points as
    the Unicode database does. *)
Lemma Resource_init_every_name_witness :
  Unicode.init (fun c => (c =? 20013)%N) [20013%N] (IsAWSType EC2_VPC)
  = Unicode.Constructed (Unicode.mk [20013%N] EC2_VPC None)
  /\ Unicode.init (fun c => (c =? 20013)%N) [77%N; 8212%N] (IsAWSType EC2_VPC)
     = Unicode.NameAssertion [77%N; 8212%N]
  /\ Unicode.init (fun c => (c =? 20013)%N) (Unicode.of_string "MainVPC")
       (IsAWSType EC2_VPC)
     = Unicode.Constructed (Unicode.mk (Unicode.of_string "MainVPC") EC2_VPC None).
Proof.
  split; [| split].
  - apply (proj1 (Resource_init_every_name (fun c => (c =? 20013)%N)
                    [20013%N] EC2_VPC)).
    split; [done |]. by intros c ->%list_elem_of_singleton.
  - apply (proj1 (proj2 (proj2 (Resource_init_every_name (fun c => (c =? 20013)%N)
                                  [77%N; 8212%N] EC2_VPC)))).
    right. exists 8212%N. split; [| reflexivity].
    apply list_elem_of_further, list_elem_of_here.
  - apply (proj1 (proj2 (Resource_init_every_name (fun c => (c =? 20013)%N)
                           (Unicode.of_string "MainVPC") EC2_VPC))); [done |].
    intros c Hc. simpl in Hc.
    repeat (apply elem_of_cons in Hc as [->|Hc]; [reflexivity |]).
    by apply elem_of_nil in Hc.
Defined.

(** *** Attribute references *)

(** C6: [getatt] returns the attribute reference that carries the name of
    the resource and the attribute exactly when the attribute is one of the
    [ATTRIBUTES] of the resource, and raises the invalid-attribute failure
    exactly when it is not; the check is made by [getatt] itself, and the
    representer of an attribute reference makes none. *)
Theorem getatt_checks_ATTRIBUTES (r : resource) (a : string) :
  (a ∈ AnyResource.ATTRIBUTES r
   <-> AnyResource.getatt r a = Return (mkGetAtt (AnyResource.name r) a))
  /\ (a ∉ AnyResource.ATTRIBUTES r
      <-> AnyResource.getatt r a = Raise (InvalidAttributeError a))
  /\ (forall i : Instance.t,
        AnyResource.ATTRIBUTES (AnInstance i)
        = ["AvailabilityZone"; "PrivateDnsName"; "PublicDnsName"; "PrivateIp"; "PublicIp"])
  /\ (forall g : GetAtt, yaml_representers (PyGetAtt g) = Some (getatt_representer g)).
Proof.
  unfold AnyResource.getatt, AnyResource.in_ATTRIBUTES.
  repeat split; try done.
  - intros Hin. by rewrite bool_decide_eq_true_2.
  - destruct (bool_decide_reflect (a ∈ AnyResource.ATTRIBUTES r)); done.
  - intros Hn. by rewrite bool_decide_eq_false_2.
  - destruct (bool_decide_reflect (a ∈ AnyResource.ATTRIBUTES r)); done.
Qed.

(** *** Export of a resource *)

(** C7: the export of a resource has the keys [Type] and [Properties], in
    this order, followed by [DependsOn] exactly when [depends] is set;
    [Type] is bound to the value of the kind, [Properties] to the
    properties of the resource, and [DependsOn], when present, to the value
    of [depends]. *)
Theorem export_keys_and_values (r : resource) :
  odict.keys (AnyResource.export r)
  = (["Type"; "Properties"]
     ++ match AnyResource.depends r with Some _ => ["DependsOn"] | None => [] end)%list
  /\ odict.get "Type" (AnyResource.export r)
     = Some (PyStr (AWSType_value (AnyResource.kind r)))
  /\ odict.get "Properties" (AnyResource.export r)
     = Some (PyDict (AnyResource.properties r))
  /\ odict.get "DependsOn" (AnyResource.export r) = PyStr <$> AnyResource.depends r
  /\ odict.contains "DependsOn" (AnyResource.export r)
     = match AnyResource.depends r with Some _ => true | None => false end.
Proof.
  unfold AnyResource.export, odict.contains.
  destruct (AnyResource.depends r) as [d|]; repeat split.
Qed.

(** *** The representers *)

(** C8: a direct reference is represented by the scalar tagged [!Ref] whose
    value is the name; an attribute reference by the scalar tagged
    [!GetAtt] whose value is the name, a dot and the attribute; an encoded
    content by the scalar tagged [!Base64] whose value is the content; and
    these are the representers registered for the three classes. *)
Theorem representers_render_tagged_scalars :
  (forall name : string,
     ref_representer (mkRef name) = mkScalarNode "!Ref" name)
  /\ (forall name attribute : string,
        getatt_representer (mkGetAtt name attribute)
        = mkScalarNode "!GetAtt" (name +:+ "." +:+ attribute))
  /\ (forall content : string,
        base64_representer (mkBase64 content) = mkScalarNode "!Base64" content)
  /\ (forall (r : Ref) (g : GetAtt) (b : Base64),
        yaml_representers (PyRef r) = Some (ref_representer r)
        /\ yaml_representers (PyGetAtt g) = Some (getatt_representer g)
        /\ yaml_representers (PyBase64 b) = Some (base64_representer b)).
Proof. repeat split. Qed.

(** *** Reachable stacks *)

Lemma init_invariant (name : string) (description : option string) (self : Stack.t) :
  Stack.init name description = Return self ->
  registered_by_name self /\ distinct_keys (Stack.resources self).
Proof.
  unfold Stack.init. destruct (_ && _); [| done]. intros [= <-].
  split; [constructor | apply NoDup_nil_2].
Qed.

Lemma merge_loop_state (element : Stack.t) (l : list resource) :
  forall (self self' : Stack.t) (o : outcome unit),
    for_ l (merge_step element) self = (o, self') ->
    exists done : list resource, self' = assign_all done self.
Proof.
  induction l as [|r l IH]; intros self self' o Hrun.
  - injection Hrun as _ <-. by exists [].
  - rewrite for_cons, merge_step_run in Hrun. destruct (odict.contains _ _).
    + injection Hrun as _ <-. by exists [].
    + apply IH in Hrun as (done & ->). by exists (r :: done).
Qed.

(** Whatever its outcome, [add] keeps every entry registered under the name
    of its resource and the keys distinct. *)
Lemma add_invariant (element : Stack.Element) (self : Stack.t) :
  registered_by_name self /\ distinct_keys (Stack.resources self) ->
  registered_by_name (Stack.add element self).2
  /\ distinct_keys (Stack.resources (Stack.add element self).2).
Proof.
  intros Hinv. destruct element as [r|b|shown].
  - rewrite add_resource_run. destruct (odict.contains _ _); [done |].
    apply (assign_all_invariant [r]), Hinv.
  - rewrite add_stack_unfold.
    destruct (for_ _ _ self) as [o self'] eqn:Hrun.
    apply merge_loop_state in Hrun as (done & ->).
    by apply assign_all_invariant.
  - done.
Qed.

(** *** Rendering *)

Lemma invariant_distinct_names (self : Stack.t) :
  registered_by_name self /\ distinct_keys (Stack.resources self) ->
  distinct_names self.
Proof.
  unfold registered_by_name, distinct_keys, distinct_names, odict.keys, odict.values.
  intros [Hreg Hd].
  assert (Heq : map AnyResource.name (map snd (Stack.resources self))
                = map fst (Stack.resources self)).
  { clear Hd. induction Hreg as [|[k v] d Hk _ IH]; simpl in *; [done |].
    by rewrite IH, Hk. }
  by rewrite Heq.
Qed.

(** X3: every stack that the constructor and [add] build has resources of
    pairwise distinct names. *)
Lemma built_distinct_names (self : Stack.t) : built self -> distinct_names self.
Proof.
  intros Hb. apply invariant_distinct_names.
  induction Hb as [name description self Hinit | element self _ IH].
  - by apply init_invariant in Hinit.
  - by apply add_invariant.
Qed.






(** *** Repositories *)

(** C10: [CODE_COMMIT_REPOSITORY] is not a member of [AWSType]; the
    construction of a repository raises for every name and description,
    before the base constructor runs; and a program that constructs a
    repository and adds it to a stack, or exports it, raises the same
    failure and leaves the stack as it was. *)
Theorem Repository_init_raises :
  odict.contains "CODE_COMMIT_REPOSITORY" AWSType_members = false
  /\ (forall name description : string,
        Repository.init name description
        = Raise (AttributeError "CODE_COMMIT_REPOSITORY"))
  /\ (forall (name description : string) (self : Stack.t),
        (r <- lift (Repository.init name description) ;;
         Stack.add (Stack.AResource (ARepository r))) self
        = (Raise (AttributeError "CODE_COMMIT_REPOSITORY"), self))
  /\ (forall name description : string,
        (r <-- Repository.init name description ;;
         Return (AnyResource.export (ARepository r)))
        = Raise (AttributeError "CODE_COMMIT_REPOSITORY")).
Proof. repeat split. Qed.

(** *** The examples of the specification *)

(** A stack named [net] with one VPC named [MainVPC]. *)
Example stack_net_export :
  Stack.init "net" None = Return (Stack.mk [] "net" None)
  /\ VPC.init "MainVPC" "10.0.0.0/16" = Return vpc_main
  /\ Stack.add (Stack.AResource (AVPC vpc_main)) (Stack.mk [] "net" None)
     = (Return tt, stack_net)
  /\ odict.get "Resources" (Stack.export stack_net)
     = Some (PyDict [("MainVPC",
                      PyDict [("Type", PyStr "AWS::EC2::VPC");
                              ("Properties",
                               PyDict [("CidrBlock", PyStr "10.0.0.0/16")])])]).
Proof. repeat split. Qed.

(** An attribute reference to the public address of an instance, and a
    request for an attribute that the instance does not declare. *)
Example instance_getatt :
  (g <-- AnyResource.getatt (AnInstance instance_web) "PublicIp" ;;
   Return (getatt_representer g))
  = Return (mkScalarNode "!GetAtt" "Web.PublicIp")
  /\ AnyResource.getatt (AnInstance instance_web) "Bogus"
     = Raise (InvalidAttributeError "Bogus").
Proof. split; reflexivity. Qed.

(** A route depends on its gateway attachment, and its export says so; a
    VPC depends on nothing, and its export has no such key. *)
Example route_export_depends :
  (r <-- Route.init "Out" route_table_example "0.0.0.0/0"
                     gateway_example attachment_example ;;
   Return (AnyResource.export (ARoute r)))
  = Return [("Type", PyStr "AWS::EC2::Route");
            ("Properties",
             PyDict [("RouteTableId", PyRef (mkRef "Table"));
                     ("DestinationCidrBlock", PyStr "0.0.0.0/0");
                     ("GatewayId", PyRef (mkRef "Gateway"))]);
            ("DependsOn", PyStr "Attach")]
  /\ AnyResource.export (AVPC vpc_main)
     = [("Type", PyStr "AWS::EC2::VPC");
        ("Properties", PyDict [("CidrBlock", PyStr "10.0.0.0/16")])].
Proof. split; reflexivity. Qed.

(** ** Further properties of the code *)

(** *** Registering and looking up *)

Lemma getitem_get (k : string) (self : Stack.t) :
  Stack.getitem k self
  = match odict.get k (Stack.resources self) with
    | Some r => Return r
    | None => Raise KeyError
    end.
Proof. reflexivity. Qed.

Lemma built_invariant (self : Stack.t) :
  built self -> registered_by_name self /\ distinct_keys (Stack.resources self).
Proof.
  induction 1 as [name description self Hinit | element self _ IH].
  - by apply init_invariant in Hinit.
  - by apply add_invariant.
Qed.

Lemma registered_get (self : Stack.t) (k : string) (r : resource) :
  registered_by_name self ->
  odict.get k (Stack.resources self) = Some r -> AnyResource.name r = k.
Proof.
  unfold registered_by_name. induction 1 as [|[k' v] d Hk _ IH]; simpl; [done |].
  destruct (decide (k = k')) as [->|_]; [| exact IH].
  by intros [= <-].
Qed.

(** X1: adding a resource whose name is not registered returns normally;
    the resource is then found under its name, every other lookup answers
    as before, and the new name comes last in the insertion order. *)
Theorem add_then_getitem (r : resource) (self : Stack.t) :
  AnyResource.name r ∉ odict.keys (Stack.resources self) ->
  exists self' : Stack.t,
    Stack.add (Stack.AResource r) self = (Return tt, self')
    /\ Stack.getitem (AnyResource.name r) self' = Return r
    /\ (forall k, k <> AnyResource.name r ->
                  Stack.getitem k self' = Stack.getitem k self)
    /\ odict.keys (Stack.resources self')
       = (odict.keys (Stack.resources self) ++ [AnyResource.name r])%list
    /\ Stack.name self' = Stack.name self
    /\ Stack.description self' = Stack.description self.
Proof.
  intros Hfresh. eexists. split.
  - rewrite add_resource_run. apply contains_false in Hfresh. by rewrite Hfresh.
  - repeat split.
    + rewrite getitem_get. simpl. by rewrite get_set_eq.
    + intros k Hk. rewrite !getitem_get. simpl. by rewrite get_set_ne.
    + simpl. rewrite set_absent by done. unfold odict.keys. by rewrite map_app.
Qed.

Lemma add_then_getitem_witness :
  exists self' : Stack.t,
    Stack.add (Stack.AResource gateway_y) (Stack.mk [("X", gateway_x)] "a" None)
    = (Return tt, self')
    /\ Stack.getitem "Y" self' = Return gateway_y
    /\ (forall k, k <> "Y" ->
          Stack.getitem k self'
          = Stack.getitem k (Stack.mk [("X", gateway_x)] "a" None))
    /\ odict.keys (Stack.resources self') = ["X"; "Y"]
    /\ Stack.name self' = "a"
    /\ Stack.description self' = None.
Proof.
  apply (add_then_getitem gateway_y (Stack.mk [("X", gateway_x)] "a" None)).
  simpl. by intros ?%list_elem_of_singleton.
Defined.

(** X2: on a stack built by the constructor and [add], the lookup of a
    name that is not registered raises [KeyError], and the lookup of a
    registered name returns a resource of that name. *)
Theorem getitem_of_built (self : Stack.t) (k : string) :
  built self ->
  (k ∉ odict.keys (Stack.resources self) -> Stack.getitem k self = Raise KeyError)
  /\ (k ∈ odict.keys (Stack.resources self) ->
      exists r : resource, Stack.getitem k self = Return r /\ AnyResource.name r = k).
Proof.
  intros [Hreg _]%built_invariant. rewrite getitem_get. split.
  - intros Hk%contains_false%contains_get_None. by rewrite Hk.
  - intros Hk%contains_true. unfold odict.contains in Hk.
    destruct (odict.get k (Stack.resources self)) as [r|] eqn:Hget; [| done].
    exists r. split; [done |]. by apply (registered_get self).
Qed.

Lemma getitem_of_built_witness :
  Stack.getitem "Z" (Stack.add (Stack.AResource gateway_x) (Stack.mk [] "a" None)).2
  = Raise KeyError
  /\ exists r : resource,
       Stack.getitem "X" (Stack.add (Stack.AResource gateway_x) (Stack.mk [] "a" None)).2
       = Return r
       /\ AnyResource.name r = "X".
Proof.
  assert (Hb : built (Stack.add (Stack.AResource gateway_x) (Stack.mk [] "a" None)).2).
  { apply built_add. by apply (built_init "a" None). }
  split.
  - apply (proj1 (getitem_of_built _ "Z" Hb)). simpl.
    by intros ?%list_elem_of_singleton.
  - apply (proj2 (getitem_of_built _ "X" Hb)). simpl. apply list_elem_of_here.
Defined.

Lemma built_distinct_names_witness :
  distinct_names
    (Stack.add (Stack.AStack stack_b)
       (Stack.add (Stack.AResource vpc_a) (Stack.mk [] "a" None)).2).2.
Proof.
  apply built_distinct_names. do 2 apply built_add. by apply (built_init "a" None).
Defined.

(** *** Merging without a collision *)

Lemma assign_all_fresh (l : list resource) :
  forall self : Stack.t,
    NoDup (map AnyResource.name l) ->
    (forall n, n ∈ map AnyResource.name l -> n ∉ odict.keys (Stack.resources self)) ->
    assign_all l self
    = Stack.mk (Stack.resources self ++ map (fun r => (AnyResource.name r, r)) l)%list
               (Stack.name self) (Stack.description self).
Proof.
  induction l as [|r l IH]; intros self Hnd Hfresh; simpl.
  - rewrite app_nil_r. by destruct self.
  - apply list.NoDup_cons in Hnd as [Hr Hnd].
    rewrite IH; [| done |].
    + simpl. rewrite set_absent.
      * by rewrite <- app_assoc.
      * apply Hfresh. simpl. apply list_elem_of_here.
    + intros n Hn [->|Hin]%keys_set_resource; [done |].
      apply (Hfresh n); [| done]. simpl. by apply list_elem_of_further.
Qed.

Lemma add_each_fresh (l : list resource) :
  forall self : Stack.t,
    NoDup (map AnyResource.name l) ->
    (forall n, n ∈ map AnyResource.name l -> n ∉ odict.keys (Stack.resources self)) ->
    for_ l (fun r => Stack.add (Stack.AResource r)) self = (Return tt, assign_all l self).
Proof.
  induction l as [|r l IH]; intros self Hnd Hfresh; [done |].
  apply list.NoDup_cons in Hnd as [Hr Hnd].
  rewrite for_cons, add_resource_run.
  assert (Hc : odict.contains (AnyResource.name r) (Stack.resources self) = false).
  { apply contains_false, Hfresh. simpl. apply list_elem_of_here. }
  rewrite Hc. simpl. apply IH; [done |].
  intros n Hn [->|Hin]%keys_set_resource; [done |].
  apply (Hfresh n); [| done]. simpl. by apply list_elem_of_further.
Qed.

(** X4: when the name of the merged stack is neither registered in the
    target nor the name of one of the merged resources, and the merged
    resources have distinct names of which none is registered in the
    target, merging returns normally, appends the merged resources to the
    target in their insertion order, and does what adding them one by one
    does. *)
Theorem merge_without_collision (element self : Stack.t) :
  Stack.name element ∉ odict.keys (Stack.resources self) ->
  Stack.name element ∉ map AnyResource.name (odict.values (Stack.resources element)) ->
  NoDup (map AnyResource.name (odict.values (Stack.resources element))) ->
  (forall n, n ∈ map AnyResource.name (odict.values (Stack.resources element)) ->
             n ∉ odict.keys (Stack.resources self)) ->
  Stack.add (Stack.AStack element) self
  = (Return tt,
     Stack.mk (Stack.resources self
               ++ map (fun r => (AnyResource.name r, r))
                      (odict.values (Stack.resources element)))%list
              (Stack.name self) (Stack.description self))
  /\ add_each element self = Stack.add (Stack.AStack element) self.
Proof.
  intros Hname Hnames Hnd Hfresh.
  rewrite add_stack_unfold, merge_assigns_all by done.
  unfold add_each. rewrite add_each_fresh by done.
  by rewrite assign_all_fresh.
Qed.

Lemma merge_without_collision_witness :
  Stack.add (Stack.AStack stack_gateways) stack_a
  = (Return tt,
     Stack.mk [("Net", vpc_a); ("X", gateway_x); ("Y", gateway_y)] "a" None)
  /\ add_each stack_gateways stack_a = Stack.add (Stack.AStack stack_gateways) stack_a.
Proof.
  apply (merge_without_collision stack_gateways stack_a); simpl.
  - not_in_list.
  - not_in_list.
  - apply NoDup_cons_2; [not_in_list | apply NoDup_singleton].
  - intros n Hn.
    repeat (apply elem_of_cons in Hn as [->|Hn]; [not_in_list |]).
    by apply elem_of_nil in Hn.
Defined.

(** *** Stack names *)

Lemma in_range_line_feed (c : ascii) :
  in_range 10 10 c = true <-> c = ascii_of_N 10.
Proof.
  unfold in_range, code. rewrite andb_true_iff, !N.leb_le. split.
  - intros [Hlo Hhi]. rewrite <- (ascii_N_embedding c). f_equal. lia.
  - intros ->. simpl. lia.
Qed.

Lemma stack_name_tail_spec (s : string) :
  stack_name_tail s = true
  <-> all_chars stack_name_char s = true
      \/ exists b : string, s = b +:+ newline /\ all_chars stack_name_char b = true.
Proof.
  induction s as [|c s IH].
  - split; [by left | done].
  - destruct s as [|c' s'].
    + cbn. rewrite orb_true_iff, andb_true_r, in_range_line_feed. split.
      * intros [?| ->]; [by left | right; by exists ""].
      * intros [?|(b & Hb & _)]; [by left | right].
        destruct b as [|cb b]; cbn in Hb; [by injection Hb |].
        injection Hb as _ Hb. by destruct b.
    + change (stack_name_tail (String c (String c' s')))
        with (stack_name_char c && stack_name_tail (String c' s')).
      rewrite andb_true_iff, IH.
      change (all_chars stack_name_char (String c (String c' s')))
        with (stack_name_char c && all_chars stack_name_char (String c' s')).
      rewrite andb_true_iff. split.
      * intros [Hc [Hall|(b & Hb & Hall)]]; [by left | right].
        exists (String c b). split; [by rewrite Hb |].
        change (stack_name_char c && all_chars stack_name_char b = true).
        by rewrite Hc.
      * intros [[Hc Hall]|(b & Hb & Hall)]; [split; [done | by left] |].
        destruct b as [|cb b]; [done |].
        change (String c (String c' s') = String cb (b +:+ newline)) in Hb.
        change (stack_name_char cb && all_chars stack_name_char b = true) in Hall.
        injection Hb as -> Hs. apply andb_true_iff in Hall as [Hc Hall].
        split; [done |]. right. by exists b.
Qed.

Lemma match_VALID_STACK_NAME_spec (n : string) :
  match_VALID_STACK_NAME n = true
  <-> plain_stack_name n \/ exists m : string, n = m +:+ newline /\ plain_stack_name m.
Proof.
  unfold plain_stack_name. destruct n as [|c s]; simpl.
  - split; [done |]. intros [(? & ? & ? & _)|(m & Hm & c & body & -> & _)]; done.
  - rewrite andb_true_iff, stack_name_tail_spec. split.
    + intros [Hc [Hall|(b & -> & Hall)]].
      * left. by exists c, s.
      * right. exists (String c b). split; [done |]. by exists c, b.
    + intros [(c0 & body & [= -> ->] & Hc & Hall)
             |(m & Hm & c0 & body & -> & Hc & Hall)].
      * split; [done | by left].
      * injection Hm as -> ->. split; [done |]. right. by exists body.
Qed.

(** X5: a stack is constructed, without resources, exactly for the names
    of at most 128 characters that consist of a letter followed by letters,
    digits and hyphens, or of such a name followed by one line feed; every
    other name raises the invalid-stack-name failure. *)
Theorem Stack_init_names (n : string) (d : option string) :
  (accepted_stack_name n <-> Stack.init n d = Return (Stack.mk [] n d))
  /\ (~ accepted_stack_name n
      <-> Stack.init n d = Raise (AssertionError ("invalid stack name: " +:+ n))).
Proof.
  unfold accepted_stack_name, Stack.init.
  rewrite <- match_VALID_STACK_NAME_spec.
  destruct (match_VALID_STACK_NAME n); simpl.
  - destruct (bool_decide_reflect (String.length n <= VALID_STACK_NAME_MAX_LEN)%nat);
      simpl; split; split; intros; try done; try tauto.
  - split; split; intros; try done.
    + by destruct H.
    + by intros [].
Qed.

Lemma Stack_init_names_witness :
  Stack.init ("net" +:+ newline) None = Return (Stack.mk [] ("net" +:+ newline) None)
  /\ Stack.init "1net" None = Raise (AssertionError "invalid stack name: 1net").
Proof.
  split.
  - apply (proj1 (proj1 (Stack_init_names ("net" +:+ newline) None))).
    split; [simpl; unfold VALID_STACK_NAME_MAX_LEN; lia |].
    right. exists "net". split; [reflexivity |]. by exists "n"%char, "et".
  - apply (proj1 (proj2 (Stack_init_names "1net" None))).
    intros [_ [(c & body & [= <- <-] & Hc & _)|(m & Hm & c & body & -> & Hc & _)]].
    + discriminate Hc.
    + injection Hm as <- _. discriminate Hc.
Defined.

(** *** Export of a stack *)

Lemma get_map_values {V W : Type} (f : V -> W) (d : odict.t string V) (k : string) :
  odict.get k (map (fun kv => (kv.1, f kv.2)) d) = f <$> odict.get k d.
Proof.
  induction d as [|[k' v] d IH]; simpl; [done |].
  by destruct (decide (k = k')).
Qed.

Lemma registered_export (self : Stack.t) :
  registered_by_name self ->
  distinct_keys (Stack.resources self) ->
  odict.of_list
    (map (fun v => (AnyResource.name v, PyDict (AnyResource.export v)))
         (odict.values (Stack.resources self)))
  = map (fun kv => (kv.1, PyDict (AnyResource.export kv.2))) (Stack.resources self).
Proof.
  unfold registered_by_name, distinct_keys, odict.keys, odict.values.
  intros Hreg Hd.
  assert (Heq : map (fun v => (AnyResource.name v, PyDict (AnyResource.export v)))
                    (map snd (Stack.resources self))
                = map (fun kv => (kv.1, PyDict (AnyResource.export kv.2)))
                      (Stack.resources self)).
  { clear Hd. induction Hreg as [|[k v] d Hk _ IH]; simpl in *; [done |].
    by rewrite IH, Hk. }
  rewrite Heq. apply of_list_distinct. by rewrite map_map.
Qed.

(** X6: the export of a stack has the keys [AWSTemplateFormatVersion] and
    [Resources], in this order, followed by [Description] exactly when the
    stack has a description; the version is [2010-09-09], the description
    is exported as it is, and a stack without resources exports an empty
    [Resources] mapping. *)
Theorem Stack_export_keys (self : Stack.t) :
  odict.keys (Stack.export self)
  = (["AWSTemplateFormatVersion"; "Resources"]
     ++ match Stack.description self with Some _ => ["Description"] | None => [] end)%list
  /\ odict.get "AWSTemplateFormatVersion" (Stack.export self) = Some (PyStr "2010-09-09")
  /\ odict.get "Description" (Stack.export self) = PyStr <$> Stack.description self
  /\ (Stack.resources self = [] ->
      odict.get "Resources" (Stack.export self) = Some (PyDict [])).
Proof.
  unfold Stack.export. destruct (Stack.description self); repeat split;
    intros ->; reflexivity.
Qed.

(** X7: on a stack built by the constructor and [add], the [Resources]
    mapping of the export binds each registered name to the export of the
    resource that the lookup of that name returns, and binds no other
    name. *)
Theorem Stack_export_entries (self : Stack.t) :
  built self ->
  exists d : odict.t string PyVal,
    odict.get "Resources" (Stack.export self) = Some (PyDict d)
    /\ forall k : string,
         odict.get k d
         = match Stack.getitem k self with
           | Return r => Some (PyDict (AnyResource.export r))
           | Raise _ => None
           end.
Proof.
  intros [Hreg Hd]%built_invariant. eexists. split.
  - unfold Stack.export. rewrite registered_export by done.
    by destruct (Stack.description self).
  - intros k.
    rewrite (get_map_values (fun r => PyDict (AnyResource.export r))), getitem_get.
    by destruct (odict.get k (Stack.resources self)).
Qed.

Lemma Stack_export_entries_witness :
  exists d : odict.t string PyVal,
    odict.get "Resources"
      (Stack.export (Stack.add (Stack.AResource gateway_x) (Stack.mk [] "a" None)).2)
    = Some (PyDict d)
    /\ forall k : string,
         odict.get k d
         = match Stack.getitem k
                   (Stack.add (Stack.AResource gateway_x) (Stack.mk [] "a" None)).2 with
           | Return r => Some (PyDict (AnyResource.export r))
           | Raise _ => None
           end.
Proof.
  apply (Stack_export_entries
           (Stack.add (Stack.AResource gateway_x) (Stack.mk [] "a" None)).2).
  apply built_add. by apply (built_init "a" None).
Defined.

(** *** Network interfaces of an instance *)

Lemma Forall_set {K V : Type} `{EqDecision K} (P : K * V -> Prop)
    (d : odict.t K V) (k : K) (v : V) :
  Forall P d -> P (k, v) -> Forall P (odict.set k v d).
Proof.
  intros Hd Hkv. induction Hd as [|[k' v'] d Hk' Hd IH]; simpl.
  - by constructor.
  - destruct (decide (k = k')); by constructor.
Qed.

Lemma add_interface_run (self : Instance.t) (ni : NetworkInterface.t) :
  Instance.add (ANetworkInterface ni) self
  = match NetworkInterface.device_index ni with
    | None =>
        match py_max (odict.keys (Instance.network_interfaces self) ++ [0])%list with
        | Return m =>
            (Return (ANetworkInterface (NetworkInterface.set_device_index (m + 1) ni)),
             Instance.set_network_interfaces
               (odict.set (m + 1) (NetworkInterface.set_device_index (m + 1) ni)
                          (Instance.network_interfaces self)) self)
        | Raise e => (Raise e, self)
        end
    | Some i =>
        if odict.contains i (Instance.network_interfaces self)
        then (Raise DuplicateDeviceIndexError, self)
        else (Return (ANetworkInterface ni),
              Instance.set_network_interfaces
                (odict.set i ni (Instance.network_interfaces self)) self)
    end.
Proof.
  unfold Instance.add, bind, get, lift, modify, ret, assert_, raise.
  destruct (NetworkInterface.device_index ni) as [i|].
  - by destruct (odict.contains i _).
  - by destruct (py_max _).
Qed.

(** X8: the constructor of an instance and every call of [add], whatever
    its outcome, keep the network interfaces of the instance stored under
    pairwise distinct indices, each interface under its own device
    index. *)
Theorem Instance_interfaces_indexed :
  (forall (name : string) (image : AMI) (type : string) (disk_size : option Z)
      (self : Instance.t),
      Instance.init name image type disk_size = Return self ->
      interfaces_indexed self /\ distinct_keys (Instance.network_interfaces self))
  /\ (forall (self : Instance.t) (device : Device),
        interfaces_indexed self /\ distinct_keys (Instance.network_interfaces self) ->
        interfaces_indexed (Instance.add device self).2
        /\ distinct_keys (Instance.network_interfaces (Instance.add device self).2)).
Proof.
  split.
  - intros name image type disk_size self Hinit%Instance_init_fresh.
    unfold interfaces_indexed, distinct_keys. rewrite Hinit.
    split; [constructor | apply NoDup_nil_2].
  - intros self device [Hidx Hd]. destruct device as [ni|bd|shown]; [| done | done].
    rewrite add_interface_run.
    destruct (NetworkInterface.device_index ni) as [i|] eqn:Hi.
    + destruct (odict.contains i _); [done |]. simpl. split.
      * by apply Forall_set.
      * by apply distinct_keys_set.
    + destruct (py_max _) as [m|e]; [| done]. simpl. split.
      * by apply Forall_set.
      * by apply distinct_keys_set.
Qed.

(** X9: attaching the interface that an earlier call of [add] numbered,
    to the instance as that call left it, raises the duplicate-index
    failure: the automatic index was written to the interface. *)
Theorem add_same_interface_twice (self : Instance.t) (ni : NetworkInterface.t) :
  NetworkInterface.device_index ni = None ->
  exists (attached : Device) (self' : Instance.t),
    Instance.add (ANetworkInterface ni) self = (Return attached, self')
    /\ Instance.add attached self' = (Raise DuplicateDeviceIndexError, self').
Proof.
  intros Hnone.
  destruct (add_interface_auto self ni Hnone) as (m & _ & Hadd).
  do 2 eexists. split; [exact Hadd |].
  rewrite add_interface_run. simpl.
  assert (Hc : odict.contains (m + 1)
                 (Instance.network_interfaces self
                  ++ [(m + 1, NetworkInterface.set_device_index (m + 1) ni)])%list = true).
  { apply contains_true. unfold odict.keys. rewrite map_app.
    apply elem_of_app. right. apply list_elem_of_here. }
  by rewrite Hc.
Qed.

Lemma add_same_interface_twice_witness :
  exists (attached : Device) (self' : Instance.t),
    Instance.add (ANetworkInterface interface_auto) instance_web = (Return attached, self')
    /\ Instance.add attached self' = (Raise DuplicateDeviceIndexError, self').
Proof. exact (add_same_interface_twice instance_web interface_auto eq_refl). Defined.

(** X10: an interface with an explicit device index that is not used yet,
    whatever integer it is, is stored under that index after the interfaces
    already attached; the interface is left as it is, and nothing else of
    the instance changes. *)
Theorem add_interface_explicit (self : Instance.t) (ni : NetworkInterface.t) (i : Z) :
  NetworkInterface.device_index ni = Some i ->
  i ∉ odict.keys (Instance.network_interfaces self) ->
  Instance.add (ANetworkInterface ni) self
  = (Return (ANetworkInterface ni),
     Instance.mk
       (Instance.base self) (Instance.image self)
       (Instance.instance_type self) (Instance.block_devices self)
       (Instance.instance_profile self)
       (Instance.network_interfaces self ++ [(i, ni)])%list).
Proof.
  intros Hi Hfresh. rewrite add_interface_run, Hi.
  apply contains_false in Hfresh as Hc. rewrite Hc. simpl. by rewrite set_absent.
Qed.

Lemma add_interface_explicit_witness :
  Instance.add (ANetworkInterface interface_one) instance_web
  = (Return (ANetworkInterface interface_one),
     Instance.mk (Resource.mk "Web" EC2_INSTANCE None) ami_example "t2.micro" [] None
       [(1, interface_one)]).
Proof.
  apply (add_interface_explicit instance_web interface_one 1 eq_refl).
  simpl. apply not_elem_of_nil.
Defined.

(** X11: [add] never changes the base fields, the image, the type or the
    profile of the instance; attaching a network interface leaves the block
    devices as they are, attaching a block device leaves the network
    interfaces as they are, and a call that raises leaves the whole
    instance as it is. *)
Theorem Instance_add_frame (self : Instance.t) (device : Device) :
  Instance.base (Instance.add device self).2 = Instance.base self
  /\ Instance.image (Instance.add device self).2 = Instance.image self
  /\ Instance.instance_type (Instance.add device self).2 = Instance.instance_type self
  /\ Instance.instance_profile (Instance.add device self).2
     = Instance.instance_profile self
  /\ match device with
     | ANetworkInterface _ =>
         Instance.block_devices (Instance.add device self).2
         = Instance.block_devices self
     | _ =>
         Instance.network_interfaces (Instance.add device self).2
         = Instance.network_interfaces self
     end
  /\ (raises (Instance.add device self).1 = true -> (Instance.add device self).2 = self).
Proof.
  destruct device as [ni|bd|shown]; [| done | done].
  rewrite add_interface_run.
  destruct (NetworkInterface.device_index ni) as [i|].
  - by destruct (odict.contains i _).
  - by destruct (py_max _).
Qed.

(** *** Properties of interfaces and instances *)

(** X12: the properties of a network interface always hold the keys
    [AssociatePublicIpAddress], [SubnetId] and [DeleteOnTermination] (which
    is true); [DeviceIndex] and [Description] are present exactly when they
    are set, and [GroupSet] exactly when the list of groups is set and not
    empty, holding a reference to each group in order. *)
Theorem NetworkInterface_properties_keys (ni : NetworkInterface.t) :
  odict.keys (NetworkInterface.properties ni)
  = (["AssociatePublicIpAddress"; "SubnetId"; "DeleteOnTermination"]
     ++ match NetworkInterface.device_index ni with
        | Some _ => ["DeviceIndex"] | None => [] end
     ++ match NetworkInterface.groups ni with
        | Some (_ :: _) => ["GroupSet"] | _ => [] end
     ++ match NetworkInterface.description ni with
        | Some _ => ["Description"] | None => [] end)%list
  /\ odict.get "AssociatePublicIpAddress" (NetworkInterface.properties ni)
     = Some (PyBool (NetworkInterface.public_ip ni))
  /\ odict.get "SubnetId" (NetworkInterface.properties ni)
     = Some (PyRef (mkRef (Resource.name (Subnet.base (NetworkInterface.subnet ni)))))
  /\ odict.get "DeleteOnTermination" (NetworkInterface.properties ni) = Some (PyBool true)
  /\ odict.get "DeviceIndex" (NetworkInterface.properties ni)
     = PyInt <$> NetworkInterface.device_index ni
  /\ odict.get "GroupSet" (NetworkInterface.properties ni)
     = match NetworkInterface.groups ni with
       | Some (g :: gs) =>
           Some (PyList (map (fun g => PyRef (mkRef (Resource.name (OtherResource.base g))))
                             (g :: gs)))
       | _ => None
       end
  /\ odict.get "Description" (NetworkInterface.properties ni)
     = PyStr <$> NetworkInterface.description ni.
Proof.
  destruct ni as [subnet public_ip [[|g gs]|] [i|] [d|]]; repeat split.
Qed.

(** X13: the properties of an instance hold [ImageId], [InstanceType] and
    [BlockDeviceMappings], the latter listing the properties of the block
    devices in the order of their attachment; [IamInstanceProfile] is
    present exactly when a profile is set, and [NetworkInterfaces] exactly
    when at least one interface is attached, listing the properties of the
    interfaces in the order of their attachment. *)
Theorem Instance_properties_keys (self : Instance.t) :
  odict.keys (Instance.properties self)
  = (["ImageId"; "InstanceType"; "BlockDeviceMappings"]
     ++ match Instance.instance_profile self with
        | Some _ => ["IamInstanceProfile"] | None => [] end
     ++ match Instance.network_interfaces self with
        | [] => [] | _ :: _ => ["NetworkInterfaces"] end)%list
  /\ odict.get "ImageId" (Instance.properties self)
     = Some (PyStr (ami_id (Instance.image self)))
  /\ odict.get "InstanceType" (Instance.properties self)
     = Some (PyStr (Instance.instance_type self))
  /\ odict.get "BlockDeviceMappings" (Instance.properties self)
     = Some (PyList (map (fun bd => PyDict (BlockDevice_properties bd))
                         (Instance.block_devices self)))
  /\ odict.get "IamInstanceProfile" (Instance.properties self)
     = (fun p => PyRef (mkRef (Resource.name (OtherResource.base p))))
         <$> Instance.instance_profile self
  /\ odict.get "NetworkInterfaces" (Instance.properties self)
     = match Instance.network_interfaces self with
       | [] => None
       | _ :: _ =>
           Some (PyList (map (fun ni => PyDict (NetworkInterface.properties ni))
                             (odict.values (Instance.network_interfaces self))))
       end.
Proof.
  destruct self as [b image type bds [p|] [|[k ni] nis]]; repeat split.
Qed.

(** X14: when every interface of an instance is stored under its own
    device index, as the constructor and [add] keep it, the exported
    properties of the interfaces carry, in order, the indices under which
    the interfaces are stored. *)
Theorem exported_interfaces_carry_index (self : Instance.t) :
  interfaces_indexed self ->
  map (fun ni => odict.get "DeviceIndex" (NetworkInterface.properties ni))
      (odict.values (Instance.network_interfaces self))
  = map (fun k => Some (PyInt k)) (odict.keys (Instance.network_interfaces self)).
Proof.
  unfold interfaces_indexed, odict.values, odict.keys.
  induction 1 as [|[k ni] d Hk _ IH]; simpl in *; [done |].
  rewrite IH. f_equal.
  destruct ni as [subnet public_ip [[|g gs]|] [i|] [ds|]]; simpl in *;
    by first [discriminate Hk | injection Hk as ->].
Qed.

Lemma exported_interfaces_carry_index_witness :
  map (fun ni => odict.get "DeviceIndex" (NetworkInterface.properties ni))
      (odict.values (Instance.network_interfaces instance_web_two))
  = [Some (PyInt 1); Some (PyInt 2)].
Proof.
  apply (exported_interfaces_carry_index instance_web_two).
  repeat constructor.
Defined.

(** X15: attaching a block device appends its properties to the exported
    [BlockDeviceMappings] and changes no other exported property. *)
Theorem add_block_device_properties (self : Instance.t) (bd : BlockDevice) :
  odict.get "BlockDeviceMappings"
    (Instance.properties (Instance.add (ABlockDevice bd) self).2)
  = Some (PyList (map (fun bd => PyDict (BlockDevice_properties bd))
                      (Instance.block_devices self)
                  ++ [PyDict (BlockDevice_properties bd)])%list)
  /\ forall k : string,
       k <> "BlockDeviceMappings" ->
       odict.get k (Instance.properties (Instance.add (ABlockDevice bd) self).2)
       = odict.get k (Instance.properties self).
Proof.
  split.
  - destruct self as [b image type bds [p|] [|[k ni] nis]]; simpl;
      by rewrite map_app.
  - intros k Hk.
    destruct self as [b image type bds [p|] [|[k0 ni] nis]]; simpl;
      repeat (destruct (decide _) as [?|?]; [done || congruence |]); done.
Qed.

(** X16: an instance constructed with a disk size exports one block-device
    mapping, for the root device of its image, whose volume size is the
    decimal text of the size; constructed without a disk size it exports
    none; in both cases it has no network interface and no profile. *)
Theorem Instance_init_root_disk (name : string) (image : AMI) (type : string)
    (disk_size : option Z) :
  isalnum name = true ->
  exists self : Instance.t,
    Instance.init name image type disk_size = Return self
    /\ AnyResource.name (AnInstance self) = name
    /\ odict.keys (Instance.properties self)
       = ["ImageId"; "InstanceType"; "BlockDeviceMappings"]
    /\ odict.get "BlockDeviceMappings" (Instance.properties self)
       = Some (PyList
                 match disk_size with
                 | Some size =>
                     [PyDict [("DeviceName", PyStr (root_device image));
                              ("Ebs", PyDict [("VolumeSize", PyStr (str_of_int size));
                                              ("VolumeType", PyStr "standard")])]]
                 | None => []
                 end).
Proof.
  intros Hname. unfold Instance.init. rewrite Resource_init_run, Hname. simpl.
  destruct disk_size as [size|]; eexists; repeat split.
Qed.

Lemma Instance_init_root_disk_witness :
  exists self : Instance.t,
    Instance.init "Web" ami_example "t2.micro" (Some 20) = Return self
    /\ AnyResource.name (AnInstance self) = "Web"
    /\ odict.keys (Instance.properties self)
       = ["ImageId"; "InstanceType"; "BlockDeviceMappings"]
    /\ odict.get "BlockDeviceMappings" (Instance.properties self)
       = Some (PyList [PyDict [("DeviceName", PyStr "/dev/sda1");
                               ("Ebs", PyDict [("VolumeSize", PyStr "20");
                                               ("VolumeType", PyStr "standard")])]]).
Proof.
  exact (Instance_init_root_disk "Web" ami_example "t2.micro" (Some 20) eq_refl).
Defined.

(** *** Constructors of the resource classes *)

(** X17: each constructor of [e3.aws.cfn.ec2] accepts exactly the
    alphanumeric names, raises the invalid-identifier failure for the
    others, and yields a resource of the given name whose export has the
    type of its class; a route depends on its gateway attachment and exports
    [DependsOn] with the name of the attachment, the other resources depend
    on nothing and export no [DependsOn]. *)
Theorem constructors_bind_kinds (n : string) :
  (forall cidr : string,
     constructs (v <-- VPC.init n cidr ;; Return (AVPC v)) n "AWS::EC2::VPC" None)
  /\ (forall (vpc : VPC.t) (cidr : string),
        constructs (s <-- Subnet.init n vpc cidr ;; Return (ASubnet s))
                   n "AWS::EC2::Subnet" None)
  /\ constructs (g <-- InternetGateway.init n ;; Return (AnInternetGateway g))
                n "AWS::EC2::InternetGateway" None
  /\ (forall (vpc : VPC.t) (gateway : InternetGateway.t),
        constructs (a <-- VPCGatewayAttachment.init n vpc gateway ;;
                    Return (AVPCGatewayAttachment a))
                   n "AWS::EC2::VPCGatewayAttachment" None)
  /\ (forall (vpc : VPC.t) (tags : option PyVal),
        constructs (t <-- RouteTable.init n vpc tags ;; Return (ARouteTable t))
                   n "AWS::EC2::RouteTable" None)
  /\ (forall (table : RouteTable.t) (cidr : string) (gateway : InternetGateway.t)
        (attach : VPCGatewayAttachment.t),
        constructs (r <-- Route.init n table cidr gateway attach ;; Return (ARoute r))
                   n "AWS::EC2::Route"
                   (Some (Resource.name (VPCGatewayAttachment.base attach))))
  /\ (forall (subnet : Subnet.t) (table : RouteTable.t),
        constructs (a <-- SubnetRouteTableAssociation.init n subnet table ;;
                    Return (ASubnetRouteTableAssociation a))
                   n "AWS::EC2::SubnetRouteTableAssociation" None)
  /\ (forall (image : AMI) (type : string) (disk_size : option Z),
        constructs (i <-- Instance.init n image type disk_size ;; Return (AnInstance i))
                   n "AWS::EC2::Instance" None).
Proof.
  unfold constructs, VPC.init, Subnet.init, InternetGateway.init,
    VPCGatewayAttachment.init, RouteTable.init, Route.init,
    SubnetRouteTableAssociation.init, Instance.init.
  destruct (isalnum n) eqn:Hn; simpl; repeat split; intros;
    rewrite ?Hn; simpl; try done; try (eexists; repeat split; fail).
  destruct disk_size; eexists; repeat split.
Qed.

(** X18: the [public_ip] property of an instance is the attribute
    reference that [getatt] returns for [PublicIp], and the [cidrblock]
    property of a VPC never raises: both attributes are declared by their
    classes. *)
Theorem attribute_shortcuts :
  (forall i : Instance.t,
     AnyResource.getatt (AnInstance i) "PublicIp" = Return (Instance.public_ip i))
  /\ (forall v : VPC.t,
        AnyResource.cidrblock v
        = Return (mkGetAtt (Resource.name (VPC.base v)) "CidrBlock")).
Proof. split; reflexivity. Qed.

(** *** Rendering of attribute references *)

Lemma dotted_inj (n1 n2 a1 a2 : string) :
  all_chars char_isalnum n1 = true ->
  all_chars char_isalnum n2 = true ->
  n1 +:+ "." +:+ a1 = n2 +:+ "." +:+ a2 ->
  n1 = n2 /\ a1 = a2.
Proof.
  revert n2. induction n1 as [|c1 n1 IH]; intros [|c2 n2] H1 H2 Heq; simpl in *.
  - by injection Heq.
  - injection Heq as <- _. discriminate H2.
  - injection Heq as -> _. discriminate H1.
  - injection Heq as -> Heq.
    apply andb_true_iff in H1 as [_ H1]. apply andb_true_iff in H2 as [_ H2].
    destruct (IH n2 H1 H2 Heq) as [-> ->]. done.
Qed.

(** X19: the scalar that renders an attribute reference determines the
    reference, when the names of the resources are alphanumeric as
    [Resource.__init__] requires: two references with the same rendering
    name the same resource and the same attribute. *)
Theorem getatt_rendering_injective (n1 a1 n2 a2 : string) :
  isalnum n1 = true ->
  isalnum n2 = true ->
  getatt_representer (mkGetAtt n1 a1) = getatt_representer (mkGetAtt n2 a2) ->
  n1 = n2 /\ a1 = a2.
Proof.
  intros H1 H2 [= Heq]. apply (dotted_inj n1 n2 a1 a2); [| | exact Heq].
  - by destruct n1.
  - by destruct n2.
Qed.

Lemma getatt_rendering_injective_witness : "Web" = "Web" /\ "PublicIp" = "PublicIp".
Proof.
  exact (getatt_rendering_injective "Web" "PublicIp" "Web" "PublicIp"
           eq_refl eq_refl eq_refl).
Defined.

(** *** The resource name of a repository *)

(** X20: the resource name that [Repository.__init__] derives from the
    repository name consists of the ASCII letters and digits of that name,
    in order; deriving is the identity on a name of ASCII letters and
    digits; and the derived name is accepted by [str.isalnum] unless it is
    empty. *)
Theorem strip_non_alnum_spec (s : string) :
  list_ascii_of_string (strip_non_alnum s)
  = List.filter ascii_alnum (list_ascii_of_string s)
  /\ all_chars ascii_alnum (strip_non_alnum s) = true
  /\ (all_chars ascii_alnum s = true -> strip_non_alnum s = s)
  /\ (isalnum (strip_non_alnum s) = true <-> strip_non_alnum s <> "").
Proof.
  assert (Hall : all_chars ascii_alnum (strip_non_alnum s) = true).
  { induction s as [|c s IH]; simpl; [done |].
    destruct (ascii_alnum c) eqn:Hc; simpl; [rewrite Hc |]; exact IH. }
  repeat split.
  - clear Hall. induction s as [|c s IH]; simpl; [done |].
    destruct (ascii_alnum c); simpl; by rewrite IH.
  - done.
  - clear Hall. induction s as [|c s IH]; simpl; [done |].
    intros [-> Hs]%andb_true_iff. by rewrite IH.
  - intros Hs Heq. rewrite Heq in Hs. discriminate Hs.
  - intros Hne. apply ascii_alnum_name_isalnum. unfold ascii_alnum_name.
    by destruct (strip_non_alnum s).
Qed.

(** *** Growth of a stack *)

Lemma keys_assign_all (l : list resource) :
  forall self : Stack.t,
    exists new : list string,
      odict.keys (Stack.resources (assign_all l self))
      = (odict.keys (Stack.resources self) ++ new)%list.
Proof.
  induction l as [|r l IH]; intros self; simpl.
  - exists []. by rewrite app_nil_r.
  - destruct (IH (Stack.set_resource (AnyResource.name r) r self)) as (new & ->).
    simpl.
    destruct (decide (AnyResource.name r ∈ odict.keys (Stack.resources self))).
    + rewrite keys_set_present by done. by exists new.
    + rewrite set_absent by done. unfold odict.keys. rewrite map_app, <- app_assoc.
      by eexists.
Qed.

Lemma name_assign_all (l : list resource) :
  forall self : Stack.t,
    Stack.name (assign_all l self) = Stack.name self
    /\ Stack.description (assign_all l self) = Stack.description self.
Proof.
  induction l as [|r l IH]; intros self; simpl; [done |].
  by destruct (IH (Stack.set_resource (AnyResource.name r) r self)) as [-> ->].
Qed.

Lemma add_state (element : Stack.Element) (self : Stack.t) :
  exists l : list resource, (Stack.add element self).2 = assign_all l self.
Proof.
  destruct element as [r|b|shown].
  - rewrite add_resource_run. destruct (odict.contains _ _); [by exists [] | by exists [r]].
  - rewrite add_stack_unfold.
    destruct (for_ _ _ self) as [o self'] eqn:Hrun.
    by apply merge_loop_state in Hrun.
  - by exists [].
Qed.

(** X21: whatever its argument and its outcome, [add] keeps the name and
    the description of the stack, and it neither removes nor reorders a
    registered name: the names registered before the call are, in the same
    order, the first names registered after it. *)
Theorem add_only_grows (element : Stack.Element) (self : Stack.t) :
  Stack.name (Stack.add element self).2 = Stack.name self
  /\ Stack.description (Stack.add element self).2 = Stack.description self
  /\ exists new : list string,
       odict.keys (Stack.resources (Stack.add element self).2)
       = (odict.keys (Stack.resources self) ++ new)%list.
Proof.
  destruct (add_state element self) as (l & ->).
  destruct (name_assign_all l self) as [-> ->].
  repeat split. apply keys_assign_all.
Qed.

(** *** Statuses of the resources of a stack *)

Lemma last_status_snoc (id : string) (l : list StackResource) (res : StackResource) :
  last_status id (l ++ [res])
  = if bool_decide (LogicalResourceId res = id) then Some (ResourceStatus res)
    else last_status id l.
Proof.
  unfold last_status. rewrite List.filter_app. simpl.
  destruct (bool_decide _); [by rewrite last_snoc | by rewrite app_nil_r].
Qed.

Lemma str_in_prefix (p s : string) : String.prefix p s = true -> str_in p s = true.
Proof. destruct s; simpl; by intros ->. Qed.

Lemma last_status_elem (id st : string) (l : list StackResource) :
  last_status id l = Some st ->
  exists res : StackResource,
    res ∈ l /\ LogicalResourceId res = id /\ ResourceStatus res = st.
Proof.
  induction l as [|res l IH] using rev_ind; [done |].
  rewrite last_status_snoc. destruct (bool_decide_reflect (LogicalResourceId res = id)).
  - intros [= <-]. exists res. split; [| done].
    apply elem_of_app. right. apply list_elem_of_here.
  - intros (res' & Hin & ? & ?)%IH. exists res'. split; [| done].
    apply elem_of_app. by left.
Qed.

(** X22: [resource_status] raises when the response has no
    [StackResources]; otherwise it returns a mapping that binds each
    logical identifier to the status of the last element of that identifier
    that passes the filter, where every element passes when
    [in_progress_only] is false and the elements whose status contains
    [PROGRESS] pass when it is true; so every status that the filtered
    mapping holds contains [PROGRESS]. *)
Theorem resource_status_spec :
  (forall in_progress_only : bool,
     Stack.resource_status None in_progress_only = Raise (AssertionError ""))
  /\ (forall (l : list StackResource) (in_progress_only : bool),
        exists d : odict.t string string,
          Stack.resource_status (Some l) in_progress_only = Return d
          /\ distinct_keys d
          /\ (forall id : string,
                odict.get id d
                = last_status id (List.filter (status_kept in_progress_only) l))
          /\ (in_progress_only = false ->
              forall id : string, odict.get id d = last_status id l)
          /\ (in_progress_only = true ->
              forall id st : string,
                odict.get id d = Some st -> str_in "PROGRESS" st = true)).
Proof.
  split; [done |]. intros l in_progress_only. eexists. split; [reflexivity |].
  set (step := fun (result : odict.t string string) (res : StackResource) =>
                 if str_in "PROGRESS" (ResourceStatus res) || negb in_progress_only
                 then odict.set (LogicalResourceId res) (ResourceStatus res) result
                 else result).
  assert (Hget : forall id : string,
             odict.get id (fold_left step l odict.empty)
             = last_status id (List.filter (status_kept in_progress_only) l)).
  { intros id. induction l as [|res l IH] using rev_ind; [done |].
    rewrite fold_left_app, List.filter_app. simpl. unfold step at 1, status_kept at 2.
    destruct (str_in "PROGRESS" (ResourceStatus res) || negb in_progress_only).
    - rewrite last_status_snoc.
      destruct (bool_decide_reflect (LogicalResourceId res = id)) as [<-|Hne].
      + apply get_set_eq.
      + by rewrite get_set_ne.
    - by rewrite app_nil_r. }
  split; [| split; [exact Hget | split]].
  - clear Hget. induction l as [|res l IH] using rev_ind; [apply NoDup_nil_2 |].
    rewrite fold_left_app. simpl. unfold step at 1.
    destruct (_ || _); [apply distinct_keys_set |]; exact IH.
  - intros -> id. rewrite Hget. f_equal.
    clear. induction l as [|res l IH]; simpl; [done |].
    unfold status_kept at 1. rewrite orb_true_r. by rewrite IH.
  - intros -> id st Hst. rewrite Hget in Hst.
    apply last_status_elem in Hst as (res & Hin & _ & <-).
    apply list_elem_of_In, List.filter_In in Hin as [_ Hkept].
    unfold status_kept in Hkept. by rewrite orb_false_r in Hkept.
Qed.

(** *** The profile of an instance *)

(** X23: setting the profile of an instance makes its properties bind
    [IamInstanceProfile] to a reference to the profile, and unsetting it
    removes the key; no other exported property changes. *)
Theorem set_instance_profile_properties (self : Instance.t)
    (profile : option OtherResource.t) :
  (Instance.set_instance_profile profile self).1 = Return tt
  /\ odict.get "IamInstanceProfile"
       (Instance.properties (Instance.set_instance_profile profile self).2)
     = (fun p => PyRef (mkRef (Resource.name (OtherResource.base p)))) <$> profile
  /\ forall k : string,
       k <> "IamInstanceProfile" ->
       odict.get k (Instance.properties (Instance.set_instance_profile profile self).2)
       = odict.get k (Instance.properties self).
Proof.
  split; [done |]. split.
  - destruct self as [b image type bds p [|[k ni] nis]], profile as [q|]; reflexivity.
  - intros k Hk.
    destruct self as [b image type bds [p|] [|[k0 ni] nis]], profile as [q|]; simpl;
      repeat case_decide; try done; congruence.
Qed.
